(** * ztest: signed Bybit requests, the cached position read and the webhook

    A shallow embedding of [app.py]: the signature helpers, the two exchange
    calls, the [st.cache_data] wrapper around [fetch_open_positions], the
    FastAPI webhook handler and the dashboard's row button.

    Conventions of the embedding.
    - Text is a Rocq [string]; a character is a code point below 256.
      The case mappings ([upper], [lower], [capitalize]) are Python's on
      that range, the sharp s included, except for the micro sign and
      the y with diaeresis, whose capitals lie above it
      ([PyStr.cased_within] marks the text without them).  [encode] is
      UTF-8 on that range.
    - [hashlib.sha256] and [hmac.new] are the FIPS 180-4 and RFC 2104
      functions, written out on 32-bit words held in [N].
    - A JSON number is an integer; [pyval] has no float.
    - A data frame is the list of its rows, each a record; this is what
      pandas holds when the records have the same columns and text or
      integer cells ([Wire.tabular]), and the statements about rows are
      made for such frames.
    - Time is a rational number of seconds, which [time.time()] rounds to
      a binary64; an operation reads the clock once.
    - The exchange is a transition function on an abstract state; the
      requests sent are recorded in the world. *)

From Stdlib Require Import ZArith NArith QArith Qround String Ascii List DecimalString Lia.
From stdpp Require Import base list strings gmap sorting.

Open Scope string_scope.

(** ** Python text *)

Module PyStr.

Definition is_ascii_upper (c : ascii) : bool :=
  let n := N_of_ascii c in ((65 <=? n) && (n <=? 90))%N.

Definition is_ascii_lower (c : ascii) : bool :=
  let n := N_of_ascii c in ((97 <=? n) && (n <=? 122))%N.

(** the cased letters of the Latin-1 block: U+00C0..U+00DE without the
    multiplication sign, and U+00E0..U+00FE without the division sign *)
Definition is_latin_upper (c : ascii) : bool :=
  let n := N_of_ascii c in ((192 <=? n) && (n <=? 222) && negb (n =? 215))%N.

Definition is_latin_lower (c : ascii) : bool :=
  let n := N_of_ascii c in ((224 <=? n) && (n <=? 254) && negb (n =? 247))%N.

(** U+00DF, whose upper case is "SS" and whose title case is "Ss" *)
Definition is_sharp_s (c : ascii) : bool := (N_of_ascii c =? 223)%N.

Definition chr_upper (c : ascii) : ascii :=
  if is_ascii_lower c || is_latin_lower c then ascii_of_N (N_of_ascii c - 32) else c.

Definition chr_lower (c : ascii) : ascii :=
  if is_ascii_upper c || is_latin_upper c then ascii_of_N (N_of_ascii c + 32) else c.

Fixpoint str_map (f : ascii -> ascii) (s : string) : string :=
  match s with
  | EmptyString => EmptyString
  | String c r => String (f c) (str_map f r)
  end.

(** [s.upper()], [s.lower()], [s.capitalize()].  Two characters below
    256 have their upper case above it, U+00B5 and U+00FF; they are left
    as they are, which is where these functions and Python's part. *)
Fixpoint upper (s : string) : string :=
  match s with
  | EmptyString => EmptyString
  | String c r =>
      if is_sharp_s c then String "S" (String "S" (upper r))
      else String (chr_upper c) (upper r)
  end.

Definition lower : string -> string := str_map chr_lower.

Definition capitalize (s : string) : string :=
  match s with
  | EmptyString => EmptyString
  | String c r =>
      if is_sharp_s c then String "S" (String "s" (lower r))
      else String (chr_upper c) (lower r)
  end.

(** text made of ASCII characters only *)
Fixpoint is_ascii (s : string) : bool :=
  match s with
  | EmptyString => true
  | String c r => (N_of_ascii c <? 128)%N && is_ascii r
  end.

(** text without the micro sign and the y with diaeresis, the two
    characters below 256 whose capitals lie above *)
Fixpoint cased_within (s : string) : bool :=
  match s with
  | EmptyString => true
  | String c r =>
      negb ((N_of_ascii c =? 181)%N || (N_of_ascii c =? 255)%N) && cased_within r
  end.

(** [s.replace(old, new)] for a non-empty [old]: occurrences are found
    from the left and do not overlap.  [skip] counts the characters of an
    occurrence still to be dropped. *)
Fixpoint replace_from (old new : string) (skip : nat) (s : string) : string :=
  match s with
  | EmptyString => EmptyString
  | String c r =>
      match skip with
      | S k => replace_from old new k r
      | O =>
          if String.prefix old s
          then new ++ replace_from old new (String.length old - 1) r
          else String c (replace_from old new 0 r)
      end
  end.

(** With an empty [old] Python puts [new] before every character and at
    the end. *)
Fixpoint interleave (new s : string) : string :=
  match s with
  | EmptyString => new
  | String c r => new ++ String c (interleave new r)
  end.

Definition replace (s old new : string) : string :=
  match old with
  | EmptyString => interleave new s
  | _ => replace_from old new 0 s
  end.

(** [str(n)] for an integer *)
Definition str_int (z : Z) : string := NilZero.string_of_int (Z.to_int z).

(** [sep.join(l)] *)
Definition join (sep : string) (l : list string) : string := String.concat sep l.

(** [s.encode()]: UTF-8 *)
Definition encode_chr (c : ascii) : list N :=
  let n := N_of_ascii c in
  if (n <? 128)%N then [n]
  else [N.lor 192 (N.shiftr n 6); N.lor 128 (N.land n 63)].

Fixpoint encode (s : string) : list N :=
  match s with
  | EmptyString => []
  | String c r => encode_chr c ++ encode r
  end.

(** truth value of a string *)
Definition truthy (s : string) : bool :=
  match s with EmptyString => false | _ => true end.

End PyStr.

(** ** SHA-256 (FIPS 180-4) on 32-bit words *)

Module Sha256.
Open Scope N_scope.

Definition mask32 : N := 4294967295.
Definition w32 (x : N) : N := N.land x mask32.
Definition add32 (a b : N) : N := w32 (a + b).
Definition rotr (n x : N) : N := N.lor (N.shiftr x n) (w32 (N.shiftl x (32 - n))).
Definition shr (n x : N) : N := N.shiftr x n.
Definition not32 (x : N) : N := N.lxor x mask32.

Definition Ch (x y z : N) : N := N.lxor (N.land x y) (N.land (not32 x) z).
Definition Maj (x y z : N) : N :=
  N.lxor (N.lxor (N.land x y) (N.land x z)) (N.land y z).
Definition bsig0 (x : N) : N := N.lxor (N.lxor (rotr 2 x) (rotr 13 x)) (rotr 22 x).
Definition bsig1 (x : N) : N := N.lxor (N.lxor (rotr 6 x) (rotr 11 x)) (rotr 25 x).
Definition ssig0 (x : N) : N := N.lxor (N.lxor (rotr 7 x) (rotr 18 x)) (shr 3 x).
Definition ssig1 (x : N) : N := N.lxor (N.lxor (rotr 17 x) (rotr 19 x)) (shr 10 x).

(** the constants are fractional bits of roots of the first primes:
    cube roots for the 64 round constants, square roots for the initial
    state *)
Definition is_prime (n : N) : bool :=
  List.forallb (fun d => (n =? d) || negb (n mod d =? 0)) [2; 3; 5; 7; 11; 13; 17].

(** the primes below [19 * 19]: the first 64 *)
Definition primes : list N :=
  List.filter is_prime (List.map N.of_nat (List.seq 2 310)).

(** the integer cube root, bit by bit from bit [i - 1] down *)
Fixpoint cbrt_bits (i : nat) (n r : N) : N :=
  match i with
  | O => r
  | S j =>
      let c := N.lor r (N.shiftl 1 (N.of_nat j)) in
      cbrt_bits j n (if c * c * c <=? n then c else r)
  end.

Definition cbrt (n : N) : N := cbrt_bits 40 n 0.

Definition K : list N := List.map (fun p => w32 (cbrt (N.shiftl p 96))) primes.

(** the eight working variables *)
Definition state : Type := N * N * N * N * N * N * N * N.

Definition root_bits (p : N) : N := w32 (N.sqrt (N.shiftl p 64)).

Definition H0 : state :=
  (root_bits 2, root_bits 3, root_bits 5, root_bits 7,
   root_bits 11, root_bits 13, root_bits 17, root_bits 19).

(** big-endian bytes of a word, and back *)
Definition word_bytes (w : N) : list N :=
  [N.land (N.shiftr w 24) 255; N.land (N.shiftr w 16) 255;
   N.land (N.shiftr w 8) 255; N.land w 255].

Definition bytes_word (b3 b2 b1 b0 : N) : N :=
  N.lor (N.lor (N.shiftl b3 24) (N.shiftl b2 16)) (N.lor (N.shiftl b1 8) b0).

Fixpoint words (bs : list N) : list N :=
  match bs with
  | b3 :: b2 :: b1 :: b0 :: r => bytes_word b3 b2 b1 b0 :: words r
  | _ => []
  end.

(** padding: a 1 bit, zeros, and the bit length on 64 bits *)
Definition pad (msg : list N) : list N :=
  let len := N.of_nat (List.length msg) in
  let zeros := (55 + 64 - len mod 64) mod 64 in
  let bits := 8 * len in
  msg ++ [128] ++ List.repeat 0 (N.to_nat zeros)
      ++ word_bytes (N.shiftr bits 32) ++ word_bytes (w32 bits).

(** the message schedule: sixteen words of the block, extended to 64 *)
Fixpoint extend (n : nat) (w : list N) : list N :=
  match n with
  | O => w
  | S k =>
      let t := List.length w in
      let at_ (i : nat) := List.nth (t - i) w 0 in
      extend k (w ++ [add32 (add32 (ssig1 (at_ 2%nat)) (at_ 7%nat))
                            (add32 (ssig0 (at_ 15%nat)) (at_ 16%nat))])
  end.

Definition round (s : state) (kw : N * N) : state :=
  let '(a, b, c, d, e, f, g, h) := s in
  let t1 := add32 (add32 (add32 h (bsig1 e)) (add32 (Ch e f g) (fst kw))) (snd kw) in
  let t2 := add32 (bsig0 a) (Maj a b c) in
  (add32 t1 t2, a, b, c, add32 d t1, e, f, g).

Definition add_state (s t : state) : state :=
  let '(a, b, c, d, e, f, g, h) := s in
  let '(a', b', c', d', e', f', g', h') := t in
  (add32 a a', add32 b b', add32 c c', add32 d d',
   add32 e e', add32 f f', add32 g g', add32 h h').

Definition compress (s : state) (block : list N) : state :=
  add_state s (List.fold_left round (List.combine K (extend 48 block)) s).

(** blocks of sixteen words; [n] bounds the number of blocks *)
Fixpoint process (n : nat) (ws : list N) (s : state) : state :=
  match n with
  | O => s
  | S k =>
      match ws with
      | [] => s
      | _ => process k (List.skipn 16 ws) (compress s (List.firstn 16 ws))
      end
  end.

Definition digest_state (msg : list N) : state :=
  let ws := words (pad msg) in
  process (List.length ws) ws H0.

Definition state_bytes (s : state) : list N :=
  let '(a, b, c, d, e, f, g, h) := s in
  word_bytes a ++ word_bytes b ++ word_bytes c ++ word_bytes d ++
  word_bytes e ++ word_bytes f ++ word_bytes g ++ word_bytes h.

(** [hashlib.sha256(msg).digest()] *)
Definition sha256 (msg : list N) : list N := state_bytes (digest_state msg).

Definition block_size : nat := 64.

End Sha256.

(** ** HMAC, as [hmac.new(key, msg, hashlib.sha256)] computes it *)

Module Hmac.

Definition xor_with (c : N) (bs : list N) : list N := List.map (N.lxor c) bs.

(** a key longer than a block is hashed first, then the key is filled
    with zero bytes to the block size *)
Definition block_key (key : list N) : list N :=
  let k := if (Sha256.block_size <? List.length key)%nat then Sha256.sha256 key else key in
  k ++ List.repeat 0%N (Sha256.block_size - List.length k).

Definition digest (key msg : list N) : list N :=
  let k := block_key key in
  let inner := Sha256.sha256 (xor_with 54 k ++ msg) in
  Sha256.sha256 (xor_with 92 k ++ inner).

Definition hex_digit (n : N) : ascii :=
  if (n <? 10)%N then ascii_of_N (48 + n) else ascii_of_N (87 + n).

Fixpoint hex (bs : list N) : string :=
  match bs with
  | [] => EmptyString
  | b :: r =>
      String (hex_digit (N.land (N.shiftr b 4) 15))
             (String (hex_digit (N.land b 15)) (hex r))
  end.

(** [hmac.new(key, msg, hashlib.sha256).hexdigest()] *)
Definition hexdigest (key msg : list N) : string := hex (digest key msg).

End Hmac.

(** ** Python values: what [json] parses and what the handlers pass on *)

#[local] Set Warnings "-register-all".

Inductive pyval : Type :=
| VNone
| VBool (b : bool)
| VInt (z : Z)
| VStr (s : string)
| VList (l : list pyval)
| VDict (d : list (string * pyval)).

Module Py.

(** the two quote characters *)
Definition dquote : ascii := ascii_of_N 34.
Definition squote : ascii := ascii_of_N 39.

Definition hex2 (n : N) : string :=
  String (Hmac.hex_digit (N.land (N.shiftr n 4) 15))
         (String (Hmac.hex_digit (N.land n 15)) EmptyString).

Fixpoint contains_chr (c : ascii) (s : string) : bool :=
  match s with
  | EmptyString => false
  | String x r => Ascii.eqb x c || contains_chr c r
  end.

(** [repr(s)]: single quotes unless the text holds one and no double
    quote; backslash, the quote and the unprintable characters are
    escaped. *)
Definition repr_chr (quote : ascii) (c : ascii) : string :=
  let n := N_of_ascii c in
  if Ascii.eqb c "\"%char then "\\"
  else if Ascii.eqb c quote then String "\"%char (String quote EmptyString)
  else if (n =? 9)%N then "\t"
  else if (n =? 10)%N then "\n"
  else if (n =? 13)%N then "\r"
  else if ((n <? 32) || ((127 <=? n) && (n <=? 160)) || (n =? 173))%N
       then "\x" ++ hex2 n
  else String c EmptyString.

Fixpoint repr_body (quote : ascii) (s : string) : string :=
  match s with
  | EmptyString => EmptyString
  | String c r => repr_chr quote c ++ repr_body quote r
  end.

Definition repr_str (s : string) : string :=
  let q := if contains_chr squote s && negb (contains_chr dquote s)
           then dquote else squote in
  String q (repr_body q s ++ String q EmptyString).

Fixpoint repr (v : pyval) : string :=
  match v with
  | VNone => "None"
  | VBool true => "True"
  | VBool false => "False"
  | VInt z => PyStr.str_int z
  | VStr s => repr_str s
  | VList l => "[" ++ PyStr.join ", " (List.map repr l) ++ "]"
  | VDict d =>
      "{" ++ PyStr.join ", "
               (List.map (fun kv => repr_str (fst kv) ++ ": " ++ repr (snd kv)) d)
          ++ "}"
  end.

(** [str(v)], which is what an f-string field [{v}] inserts *)
Definition str (v : pyval) : string :=
  match v with
  | VStr s => s
  | _ => repr v
  end.

(** [bool(v)] *)
Definition truthy (v : pyval) : bool :=
  match v with
  | VNone => false
  | VBool b => b
  | VInt z => negb (z =? 0)%Z
  | VStr s => PyStr.truthy s
  | VList l => match l with [] => false | _ => true end
  | VDict d => match d with [] => false | _ => true end
  end.

(** [v != 0]: [False] equals [0], no other non-number does *)
Definition ne_zero (v : pyval) : bool :=
  match v with
  | VInt z => negb (z =? 0)%Z
  | VBool b => b
  | _ => true
  end.

(** a [dict] with text keys, in insertion order *)
Definition dict : Type := list (string * pyval).

Fixpoint dict_get (k : string) (d : dict) : option pyval :=
  match d with
  | [] => None
  | (k', v) :: r => if String.eqb k k' then Some v else dict_get k r
  end.

(** [d[k] = v]: a key already there keeps its place *)
Fixpoint dict_set (k : string) (v : pyval) (d : dict) : dict :=
  match d with
  | [] => [(k, v)]
  | (k', v') :: r =>
      if String.eqb k k' then (k', v) :: r else (k', v') :: dict_set k v r
  end.

Definition keys (d : dict) : list string := List.map fst d.

(** [sorted(keys)]: text is ordered by code point *)
Definition str_le : relation string := fun a b => Is_true (String.leb a b).

Definition sorted (l : list string) : list string := merge_sort str_le l.

(** [json.dumps(v, separators=(",", ":"), ensure_ascii=False)] *)
Definition dumps_chr (c : ascii) : string :=
  let n := N_of_ascii c in
  if Ascii.eqb c dquote then String "\"%char (String dquote EmptyString)
  else if Ascii.eqb c "\"%char then "\\"
  else if (n =? 8)%N then "\b"
  else if (n =? 9)%N then "\t"
  else if (n =? 10)%N then "\n"
  else if (n =? 12)%N then "\f"
  else if (n =? 13)%N then "\r"
  else if (n <? 32)%N then "\u00" ++ hex2 n
  else String c EmptyString.

Fixpoint dumps_body (s : string) : string :=
  match s with
  | EmptyString => EmptyString
  | String c r => dumps_chr c ++ dumps_body r
  end.

Definition dumps_str (s : string) : string :=
  String dquote (dumps_body s ++ String dquote EmptyString).

Fixpoint dumps (v : pyval) : string :=
  match v with
  | VNone => "null"
  | VBool true => "true"
  | VBool false => "false"
  | VInt z => PyStr.str_int z
  | VStr s => dumps_str s
  | VList l => "[" ++ PyStr.join "," (List.map dumps l) ++ "]"
  | VDict d =>
      "{" ++ PyStr.join ","
               (List.map (fun kv => dumps_str (fst kv) ++ ":" ++ dumps (snd kv)) d)
          ++ "}"
  end.

End Py.

(** ** 2) Bybit and dashboard configuration *)

Definition BASE_URL : string := "https://api.bybit.com".
Definition POSITIONS_PATH : string := "/v5/position/list".
Definition AUTO_MARGIN_PATH : string := "/v5/position/set-auto-add-margin".
Definition RECV_WINDOW : Z := 5000.
Definition REFRESH_INTERVAL : Z := 10000.

(** ** 3) Signature helpers *)

(** [p[k]] for a key taken from [p] itself *)
Definition param_field (p : Py.dict) (k : string) : string :=
  k ++ "=" ++ match Py.dict_get k p with Some v => Py.str v | None => "" end.

Definition _build_param_string (p : Py.dict) : string :=
  match p with
  | [] => ""
  | _ => PyStr.join "&" (List.map (param_field p) (Py.sorted (Py.keys p)))
  end.

Definition signed_text (ts api_key : string) (recv_window : Z)
    (params : Py.dict) (body_str : string) : string :=
  ts ++ api_key ++ PyStr.str_int recv_window ++ _build_param_string params ++ body_str.

Definition generate_signature (secret ts api_key : string) (recv_window : Z)
    (params : Py.dict) (body_str : string) : string :=
  let pre := signed_text ts api_key recv_window params body_str in
  Hmac.hexdigest (PyStr.encode secret) (PyStr.encode pre).

(** ** Exceptions and the two layers of effects *)

Inductive exn : Type :=
| RequestException                    (* requests: timeout, connection failure *)
| HTTPError (status : Z)              (* [r.raise_for_status()] *)
| JSONDecodeError                     (* [r.json()], [req.json()] *)
| RuntimeError (msg : string)
| KeyError (key : string)
| TypeError
| AttributeError
| NotImplementedError
| HTTPException (status : Z) (detail : string).


(** computations that can only raise *)
Definition E (A : Type) : Type := exn + A.

Definition E_bind {A B : Type} (c : E A) (k : A -> E B) : E B :=
  match c with
  | inl e => inl e
  | inr a => k a
  end.

Notation "'do' x <- c ; k" := (E_bind c (fun x => k))
  (at level 10, x name, c at level 100, k at level 200).

(** [v[k]] and [v.get(k, dflt)] *)
Definition subscript (v : pyval) (k : string) : E pyval :=
  match v with
  | VDict d =>
      match Py.dict_get k d with
      | Some x => inr x
      | None => inl (KeyError k)
      end
  | _ => inl TypeError
  end.

Definition get_default (v : pyval) (k : string) (dflt : pyval) : E pyval :=
  match v with
  | VDict d =>
      match Py.dict_get k d with
      | Some x => inr x
      | None => inr dflt
      end
  | _ => inl AttributeError
  end.

(** a [str] method called on a value *)
Definition str_method (f : string -> string) (v : pyval) : E string :=
  match v with
  | VStr s => inr (f s)
  | _ => inl AttributeError
  end.

(** ** pandas: a frame is its rows, a row maps column names to values *)

Definition DataFrame : Type := list Py.dict.

(** [pd.json_normalize] flattens nested records into dotted columns: the
    columns that are not records come first, in their order, then the
    leaves of the nested records, depth first; a name met again takes the
    later value in the earlier place *)
Definition dotted (key_string key : string) : string :=
  match key_string with
  | EmptyString => key
  | _ => key_string ++ "." ++ key
  end.

Fixpoint normalise (key_string : string) (v : pyval) (acc : Py.dict) {struct v} : Py.dict :=
  match v with
  | VDict d =>
      (fix each (l : list (string * pyval)) (acc : Py.dict) {struct l} : Py.dict :=
         match l with
         | [] => acc
         | kv :: r => each r (normalise (dotted key_string (fst kv)) (snd kv) acc)
         end) d acc
  | x => Py.dict_set key_string x acc
  end.

Definition is_record (v : pyval) : bool :=
  match v with VDict _ => true | _ => false end.

Definition flatten (v : pyval) : Py.dict :=
  match v with
  | VDict d =>
      let top := List.filter (fun kv => negb (is_record (snd kv))) d in
      let nested := List.filter (fun kv => is_record (snd kv)) d in
      List.fold_left (fun acc kv => Py.dict_set (fst kv) (snd kv) acc)
                     (normalise "" (VDict nested) []) top
  | _ => []
  end.

(** [pd.json_normalize(v)] for a truthy [v]: a list of records, or one
    record, or a refusal.  In a list [None] counts as a record without
    columns and anything else that is not a record is a [TypeError].
    A frame is kept as its rows, each with the columns of its own record:
    where the records differ in their columns pandas fills the gaps with
    NaN and turns the integers of such a column into floats, which this
    does not show; [Wire.tabular] marks the frames that have no gap. *)
Fixpoint rows_of (l : list pyval) : E DataFrame :=
  match l with
  | [] => inr []
  | VDict d :: r => do rs <- rows_of r; inr (flatten (VDict d) :: rs)
  | VNone :: r => do rs <- rows_of r; inr ([] :: rs)
  | _ :: _ => inl TypeError
  end.

Definition json_normalize (v : pyval) : E DataFrame :=
  match v with
  | VList l => rows_of l
  | VDict d => inr [flatten (VDict d)]
  | _ => inl NotImplementedError
  end.

(** ** HTTP as the program sees it *)

Record HttpRequest : Type := mkRequest {
  method : string;
  url : string;
  headers : list (string * string);
  params : Py.dict;
  data : list N
}.

(** what [requests] hands back: no reply (timeout, connection failure) or
    a status with a body that is JSON or not *)
Inductive Transport : Type :=
| NoReply
| Reply (status : Z) (json : option pyval).

(** [r.raise_for_status()] raises on 4xx and 5xx *)
Definition raise_for_status (status : Z) : E unit :=
  if ((400 <=? status) && (status <? 600))%Z then inl (HTTPError status) else inr tt.

(** the envelope test shared by both calls:
    [if j.get("retCode",0)!=0: raise RuntimeError(f"{j['retCode']}: {j['retMsg']}")] *)
Definition check_envelope (j : pyval) : E unit :=
  do c <- get_default j "retCode" (VInt 0);
  if Py.ne_zero c then
    do code <- subscript j "retCode";
    do msg <- subscript j "retMsg";
    inl (RuntimeError (Py.str code ++ ": " ++ Py.str msg))
  else inr tt.

(** [pd.json_normalize(j["result"]["list"]) if j["result"]["list"] else pd.DataFrame()] *)
Definition result_frame (j : pyval) : E DataFrame :=
  do res <- subscript j "result";
  do l <- subscript res "list";
  if Py.truthy l then json_normalize l else inr [].

(** the arguments of [fetch_open_positions], which [st.cache_data] hashes *)
Abbreviation CacheKey := (string * string * string * string * string)%type.

(** [ttl=REFRESH_INTERVAL/1000 - 1], in seconds *)
Definition ttl : Q := inject_Z REFRESH_INTERVAL / 1000 - 1.

(** binary64 arithmetic on the values the clock takes: rounding to the
    nearest value with a 53-bit significand, ties to even (normal range) *)
Module Binary64.

Definition round_pos (n d : positive) : Q :=
  let e0 := (Z.log2 (Z.pos n) - Z.log2 (Z.pos d) - 52)%Z in
  let scaled (e : Z) : Z * Z :=
    if (0 <=? e)%Z then (Z.pos n, Z.pos d * 2 ^ e)%Z
    else (Z.pos n * 2 ^ (- e), Z.pos d)%Z in
  let e := if (fst (scaled e0) / snd (scaled e0) <? 2 ^ 52)%Z then (e0 - 1)%Z else e0 in
  let q := (fst (scaled e) / snd (scaled e))%Z in
  let r := (fst (scaled e) mod snd (scaled e))%Z in
  let q' := match (2 * r ?= snd (scaled e))%Z with
            | Lt => q
            | Gt => (q + 1)%Z
            | Eq => if Z.even q then q else (q + 1)%Z
            end in
  if (0 <=? e)%Z then inject_Z (q' * 2 ^ e) else Qmake q' (Z.to_pos (2 ^ (- e))).

Definition round (x : Q) : Q :=
  match Qnum x with
  | Z0 => 0%Q
  | Z.pos n => round_pos n (Qden x)
  | Z.neg n => (- round_pos n (Qden x))%Q
  end.

(** [a * b] on floats *)
Definition mul (a b : Q) : Q := round (a * b).

(** [int(x)]: towards zero *)
Definition to_int (x : Q) : Z := Z.quot (Qnum x) (Z.pos (Qden x)).

End Binary64.

(** [int(time.time()*1000)]: the reading is a float, and so is the
    product *)
Definition millis (t : Q) : Z :=
  Binary64.to_int (Binary64.mul (Binary64.round t) 1000).

Definition query_params (category symbol settle_coin : string) : Py.dict :=
  let params := [("category", VStr category)] in
  if PyStr.truthy symbol
  then Py.dict_set "symbol" (VStr symbol) params
  else Py.dict_set "settleCoin" (VStr settle_coin) params.

Definition bapi_headers (key ts sign : string) : list (string * string) :=
  [ ("Content-Type", "application/json");
    ("X-BAPI-API-KEY", key);
    ("X-BAPI-TIMESTAMP", ts);
    ("X-BAPI-RECV-WINDOW", PyStr.str_int RECV_WINDOW);
    ("X-BAPI-SIGN", sign) ].

(** [{"category":..,"symbol":..,"side":..,"autoAddMargin":"1"|"0"}] *)
Definition margin_body (category symbol side : pyval) (enable : bool) : pyval :=
  VDict [ ("category", category); ("symbol", symbol); ("side", side);
          ("autoAddMargin", VStr (if enable then "1" else "0")) ].

(** the signed GET of [fetch_open_positions] at clock reading [t] *)
Definition positions_request (key secret category symbol settle_coin : string) (t : Q)
  : HttpRequest :=
  let params := query_params category symbol settle_coin in
  let ts := PyStr.str_int (millis t) in
  let sign := generate_signature secret ts key RECV_WINDOW params "" in
  mkRequest "GET" (BASE_URL ++ POSITIONS_PATH) (bapi_headers key ts sign) params [].

(** the signed POST of [set_auto_add_margin] at clock reading [t] *)
Definition margin_request (key secret : string) (category symbol side : pyval)
    (enable : bool) (t : Q) : HttpRequest :=
  let body_str := Py.dumps (margin_body category symbol side enable) in
  let ts := PyStr.str_int (millis t) in
  let sign := generate_signature secret ts key RECV_WINDOW [] body_str in
  mkRequest "POST" (BASE_URL ++ AUTO_MARGIN_PATH) (bapi_headers key ts sign) []
            (PyStr.encode body_str).

(** ** 1) Environment *)

Record Config : Type := mkConfig {
  WEBHOOK_SECRET : option string;
  API_KEY : string;
  API_SECRET : string
}.

(** an inbound webhook request: its [Authorization] header if any, and its
    body as [req.json()] reads it ([None] when it is not JSON) *)
Record Request : Type := mkWebhookRequest {
  authorization : option string;
  body : option pyval
}.

(** what the row button does to the page *)
Inductive Outcome : Type :=
| Rerun
| ShowError (e : exn).

Section App.

(** the exchange: a state and how it answers a request at a time *)
Context {X : Type}.
Variable serve : X -> Q -> HttpRequest -> X * Transport.

(** the wording of the errors whose text is the interpreter's or a
    library's *)
Variable describe : exn -> string.

Record World : Type := mkWorld {
  now : Q;
  exchange : X;
  sent : list HttpRequest;
  cache : gmap CacheKey (Q * DataFrame)
}.

Definition M (A : Type) : Type := World -> E A * World.

Definition ret {A : Type} (a : A) : M A := fun w => (inr a, w).
Definition raise {A : Type} (e : exn) : M A := fun w => (inl e, w).
Definition lift {A : Type} (c : E A) : M A := fun w => (c, w).

Definition bind {A B : Type} (c : M A) (k : A -> M B) : M B :=
  fun w =>
    match c w with
    | (inl e, w') => (inl e, w')
    | (inr a, w') => k a w'
    end.

(** [try: c except Exception as e: h e] *)
Definition catch {A : Type} (c : M A) (h : exn -> M A) : M A :=
  fun w =>
    match c w with
    | (inl e, w') => h e w'
    | (inr a, w') => (inr a, w')
    end.

Notation "'let*' x := c 'in' k" := (bind c (fun x => k))
  (at level 10, x name, c at level 100, k at level 200).

Definition clock : M Q := fun w => (inr (now w), w).

(** [requests.get] / [requests.post]: the request reaches the exchange
    and is recorded *)
Definition request (r : HttpRequest) : M (Z * option pyval) :=
  fun w =>
    let '(x', t) := serve (exchange w) (now w) r in
    let w' := mkWorld (now w) x' (sent w ++ [r]) (cache w) in
    match t with
    | NoReply => (inl RequestException, w')
    | Reply status j => (inr (status, j), w')
    end.

(** [r.raise_for_status(); j = r.json()] *)
Definition read_json (r : Z * option pyval) : E pyval :=
  do _ <- raise_for_status (fst r);
  match snd r with
  | Some j => inr j
  | None => inl JSONDecodeError
  end.

(** [str(e)] *)
Definition str_exn (e : exn) : string :=
  match e with
  | RuntimeError msg => msg
  | KeyError k => Py.repr_str k
  | _ => describe e
  end.

(** ** 4) Bybit API *)

(** the body of [fetch_open_positions], under the decorator *)
Definition fetch_open_positions_call
    (key secret category symbol settle_coin : string) : M DataFrame :=
  let* t := clock in
  let* r := request (positions_request key secret category symbol settle_coin t) in
  let* j := lift (read_json r) in
  let* _ := lift (check_envelope j) in
  lift (result_frame j).

(** [@st.cache_data(ttl=...)]: an entry is keyed by all the arguments
    and is served while [now < stored + ttl]; a call that raises stores
    nothing *)
Definition fetch_open_positions
    (key secret category symbol settle_coin : string) : M DataFrame :=
  fun w =>
    let k : CacheKey := (key, secret, category, symbol, settle_coin) in
    let miss (w0 : World) :=
      match fetch_open_positions_call key secret category symbol settle_coin w0 with
      | (inr df, w') =>
          (inr df, mkWorld (now w') (exchange w') (sent w')
                           (<[k := (now w', df)]> (cache w')))
      | (inl e, w') => (inl e, w')
      end in
    match cache w !! k with
    | Some (stored, df) =>
        if Qlt_le_dec (now w) (stored + ttl) then (inr df, w)
        else miss (mkWorld (now w) (exchange w) (sent w) (delete k (cache w)))
    | None => miss w
    end.

(** [fetch_open_positions.clear()] *)
Definition fetch_open_positions_clear : M unit :=
  fun w => (inr tt, mkWorld (now w) (exchange w) (sent w) ∅).

Definition set_auto_add_margin
    (key secret : string) (category symbol side : pyval) (enable : bool) : M pyval :=
  let* t := clock in
  let* r := request (margin_request key secret category symbol side enable t) in
  let* j := lift (read_json r) in
  let* _ := lift (check_envelope j) in
  ret j.

(** ** 5) FastAPI webhook *)

(** the [if WEBHOOK_SECRET:] block *)
Definition authenticate (cfg : Config) (req : Request) : E unit :=
  match WEBHOOK_SECRET cfg with
  | Some secret =>
      if PyStr.truthy secret then
        let auth := default "" (authorization req) in
        if String.eqb (PyStr.replace auth "Bearer " "") secret
        then inr tt
        else inl (HTTPException 401 "Invalid webhook secret")
      else inr tt
  | None => inr tt
  end.

(** the five reads inside the first [try] *)
Definition read_fields (data : pyval) : E (string * string * string * pyval * pyval) :=
  do s <- subscript data "symbol";
  do sym <- str_method PyStr.upper s;
  do d <- subscript data "side";
  do side <- str_method PyStr.capitalize d;
  do a <- subscript data "action";
  do act <- str_method PyStr.lower a;
  do cat <- subscript data "category";
  do settle <- get_default data "settleCoin" (VStr "");
  inr (sym, side, act, cat, settle).

(** [except KeyError as e: raise HTTPException(400,f"Missing {e}")] *)
Definition parse (data : pyval) : E (string * string * string * pyval * pyval) :=
  match read_fields data with
  | inl (KeyError k) => inl (HTTPException 400 ("Missing " ++ str_exn (KeyError k)))
  | r => r
  end.

Definition webhook (cfg : Config) (req : Request) : M pyval :=
  let* _ := lift (authenticate cfg req) in
  let* data := lift (match body req with
                     | Some d => inr d
                     | None => inl JSONDecodeError
                     end) in
  let* f := lift (parse data) in
  let '(sym, side, act, cat, settle) := f in
  let enable := String.eqb act "enable" in
  let* res := catch (set_auto_add_margin (API_KEY cfg) (API_SECRET cfg)
                                         cat (VStr sym) (VStr side) enable)
                    (fun e => raise (HTTPException 500 (str_exn e))) in
  let* _ := catch fetch_open_positions_clear (fun _ => ret tt) in
  ret (VDict [("status", VStr "ok"); ("result", res)]).

(** what FastAPI answers: the returned value with 200, an
    [HTTPException] with its status and detail, anything else with 500 *)
Definition respond (r : E pyval) : Z * pyval :=
  match r with
  | inr v => (200%Z, v)
  | inl (HTTPException status detail) => (status, VDict [("detail", VStr detail)])
  | inl _ => (500%Z, VStr "Internal Server Error")
  end.

Definition post_webhook (cfg : Config) (req : Request) (w : World)
  : (Z * pyval) * World :=
  let '(r, w') := webhook cfg req w in (respond r, w').

(** ** 6) Dashboard: the button of one row *)

(** [pos] is a row of a frame without gaps ([Wire.tabular]), the record
    it came from; the handler reads the flag, then the symbol and the
    side as the call evaluates its arguments *)

Definition row_button (cfg : Config) (category : string) (pos : Py.dict) : M Outcome :=
  let cur := Py.str (default (VStr "0") (Py.dict_get "autoAddMargin" pos)) in
  catch
    (let* sym := lift (subscript (VDict pos) "symbol") in
     let* side := lift (subscript (VDict pos) "side") in
     let* _ := set_auto_add_margin (API_KEY cfg) (API_SECRET cfg) (VStr category)
                                   sym side (String.eqb cur "0") in
     let* _ := fetch_open_positions_clear in
     ret Rerun)
    (fun e => ret (ShowError e)).

End App.

Arguments World X : clear implicits.
Arguments mkWorld {X} _ _ _ _.

(** ** The signature contract in the specification's words *)

Module Spec.

(** pairs ordered by key *)
Definition key_le : relation (string * pyval) :=
  fun a b => Is_true (String.leb (fst a) (fst b)).

(** keys sorted, [k=v] pairs joined with [&] *)
Definition sortedQueryString (q : Py.dict) : string :=
  PyStr.join "&"
    (List.map (fun kv => fst kv ++ "=" ++ Py.str (snd kv)) (merge_sort key_le q)).

(** [timestamp || apiKey || recvWindowMs || sortedQueryString || bodyString] *)
Definition canonicalString (timestamp apiKey : string) (recvWindowMs : Z)
    (queryParams : Py.dict) (bodyString : string) : string :=
  timestamp ++ apiKey ++ PyStr.str_int recvWindowMs
            ++ sortedQueryString queryParams ++ bodyString.

Definition is_lower_hex (c : ascii) : bool :=
  let n := N_of_ascii c in
  (((48 <=? n) && (n <=? 57)) || ((97 <=? n) && (n <=? 102)))%N.

(** the token of an [Authorization: Bearer <token>] header *)
Definition bearer_token (auth : string) : option string :=
  if String.prefix "Bearer " auth
  then Some (String.substring 7 (String.length auth - 7) auth)
  else None.

(** uppercased, and capitalized (first letter upper, rest lower), for the
    letters a to z *)
Definition upper_letter (c : ascii) : ascii :=
  let n := N_of_ascii c in
  if ((97 <=? n) && (n <=? 122))%N then ascii_of_N (n - 32) else c.

Definition lower_letter (c : ascii) : ascii :=
  let n := N_of_ascii c in
  if ((65 <=? n) && (n <=? 90))%N then ascii_of_N (n + 32) else c.

Fixpoint map_letters (f : ascii -> ascii) (s : string) : string :=
  match s with
  | EmptyString => EmptyString
  | String c r => String (f c) (map_letters f r)
  end.

Definition uppercased (s : string) : string := map_letters upper_letter s.

Definition capitalized (s : string) : string :=
  match s with
  | EmptyString => EmptyString
  | String c r => String (upper_letter c) (map_letters lower_letter r)
  end.

(** the fields a webhook body must carry, in the order they are read *)
Definition required : list string := ["symbol"; "side"; "action"; "category"].

Fixpoint before (f : string) (l : list string) : list string :=
  match l with
  | [] => []
  | g :: r => if String.eqb g f then [] else g :: before f r
  end.

(** a body that carries the four required fields, the first three as
    text *)
Definition complete (d : Py.dict) (symbol side action : string) (category : pyval)
  : Prop :=
  Py.dict_get "symbol" d = Some (VStr symbol)
  /\ Py.dict_get "side" d = Some (VStr side)
  /\ Py.dict_get "action" d = Some (VStr action)
  /\ Py.dict_get "category" d = Some category.

End Spec.

(** ** A small exchange to run the program against *)

Module Demo.

(** one BTCUSDT long whose auto-add-margin flag the exchange keeps, an
    exchange with no position, and one that rejects every request *)
Inductive exchange_state : Type :=
| Holding (auto : bool)
| Flat
| Rejecting.

Definition position (auto : bool) : pyval :=
  VDict [ ("symbol", VStr "BTCUSDT"); ("side", VStr "Buy"); ("size", VStr "0.01");
          ("autoAddMargin", VInt (if auto then 1 else 0)) ].

Definition envelope (l : list pyval) : pyval :=
  VDict [ ("retCode", VInt 0); ("retMsg", VStr "OK");
          ("result", VDict [("list", VList l)]) ].

Definition rejection : pyval :=
  VDict [ ("retCode", VInt 10001); ("retMsg", VStr "params error") ].

Definition enabling (r : HttpRequest) : bool :=
  bool_decide (data r = PyStr.encode (Py.dumps
    (margin_body (VStr "linear") (VStr "BTCUSDT") (VStr "Buy") true))).

Definition serve (x : exchange_state) (t : Q) (r : HttpRequest)
  : exchange_state * Transport :=
  match x with
  | Rejecting => (x, Reply 200 (Some rejection))
  | Flat => (x, Reply 200 (Some (envelope [])))
  | Holding auto =>
      if String.eqb (method r) "POST"
      then (Holding (enabling r), Reply 200 (Some (envelope [])))
      else (x, Reply 200 (Some (envelope [position auto])))
  end.

Definition describe (e : exn) : string := "error".

Definition start (x : exchange_state) : World exchange_state :=
  mkWorld (1700000000 # 1) x [] ∅.

Definition open_mode : Config := mkConfig None "key" "secret".
Definition guarded : Config := mkConfig (Some "abc") "key" "secret".

Definition enable_fields : Py.dict :=
  [ ("symbol", VStr "btcusdt"); ("side", VStr "buy");
    ("action", VStr "Enable"); ("category", VStr "linear") ].

Definition enable_body : pyval := VDict enable_fields.

(** the same command as TradingView would usually spell it *)
Definition enable_fields_upper : Py.dict :=
  [ ("symbol", VStr "BTCUSDT"); ("side", VStr "Buy");
    ("action", VStr "Enable"); ("category", VStr "linear") ].

(** a body without its action *)
Definition no_action_fields : Py.dict :=
  [ ("symbol", VStr "BTCUSDT"); ("side", VStr "Buy"); ("category", VStr "linear") ].

(** a body without its side whose symbol is a number *)
Definition number_symbol_fields : Py.dict :=
  [ ("symbol", VInt 5); ("action", VStr "enable"); ("category", VStr "linear") ].

Definition alert : Request := mkWebhookRequest None (Some enable_body).
Definition alert_upper : Request := mkWebhookRequest None (Some (VDict enable_fields_upper)).

Definition linear_query : Py.dict :=
  [("category", VStr "linear"); ("symbol", VStr "BTCUSDT")].

(** the dashboard has read the position once *)
Definition polled : World exchange_state :=
  snd (fetch_open_positions serve "key" "secret" "linear" "BTCUSDT" "USDT"
                            (start (Holding false))).

Definition listing (auto : bool) : DataFrame :=
  [[ ("symbol", VStr "BTCUSDT"); ("side", VStr "Buy"); ("size", VStr "0.01");
     ("autoAddMargin", VInt (if auto then 1 else 0)) ]].

(** and then the alert arrived *)
Definition alerted : World exchange_state :=
  snd (webhook serve describe open_mode alert polled).

Definition ack : pyval :=
  VDict [("status", VStr "ok"); ("result", envelope [])].

(** [w] seen [dt] seconds later *)
Definition later (dt : Q) (w : World exchange_state) : World exchange_state :=
  mkWorld (now w + dt) (exchange w) (sent w) (cache w).

End Demo.

(** ** What the exchange checks on a request *)

Module Wire.

(** the value of a header, [""] when it is absent *)
Fixpoint header (name : string) (h : list (string * string)) : string :=
  match h with
  | [] => ""
  | (n, v) :: r => if String.eqb n name then v else header name r
  end.

(** the signature of a request recomputed from the request itself: the
    timestamp, key and window it announces, its query parameters and the
    bytes of its body *)
Definition expected_sign (secret : string) (r : HttpRequest) : string :=
  Hmac.hexdigest (PyStr.encode secret)
    (PyStr.encode (header "X-BAPI-TIMESTAMP" (headers r)
                   ++ header "X-BAPI-API-KEY" (headers r)
                   ++ header "X-BAPI-RECV-WINDOW" (headers r)
                   ++ _build_param_string (params r))
     ++ data r)%list.

Definition verifies (key secret : string) (r : HttpRequest) : bool :=
  String.eqb (header "X-BAPI-API-KEY" (headers r)) key
  && String.eqb (header "X-BAPI-SIGN" (headers r)) (expected_sign secret r).

(** a record none of whose values is itself a record *)
Definition flat (d : Py.dict) : bool :=
  List.forallb (fun kv => match snd kv with VDict _ => false | _ => true end) d.

(** a frame without gaps: every row has the columns of the first, in the
    same order, and every cell is text or an integer; pandas keeps such
    rows as they are *)
Definition plain_cell (v : pyval) : bool :=
  match v with VStr _ | VInt _ => true | _ => false end.

Definition tabular (df : DataFrame) : bool :=
  match df with
  | [] => true
  | first :: _ =>
      List.forallb
        (fun row => bool_decide (Py.keys row = Py.keys first)
                    && List.forallb (fun kv => plain_cell (snd kv)) row) df
  end.

(** a column that is text in this row, or one the row does not have *)
Definition text_or_absent (k : string) (row : Py.dict) : bool :=
  match Py.dict_get k row with
  | Some (VStr _) | None => true
  | Some _ => false
  end.

(** every request of a list verifies *)
Definition all_signed (key secret : string) (l : list HttpRequest) : Prop :=
  Forall (fun r => verifies key secret r = true) l.

(** [old in s] *)
Fixpoint occurs (old s : string) : bool :=
  match s with
  | EmptyString => String.prefix old s
  | String _ r => String.prefix old s || occurs old r
  end.

End Wire.

(** ** [start_webhook]: the listener and its flag *)

Record Listener : Type := mkListener {
  _webhook_started : bool;
  threads : nat                    (* listener threads started so far *)
}.

Definition start_webhook (s : Listener) : Listener :=
  if negb (_webhook_started s)
  then mkListener true (S (threads s))
  else s.

(** ** 6) Dashboard: credentials, filters, refresh, table *)

(** [s.strip()]: the white space of [str.isspace] below code point 256 *)
Definition is_space (c : ascii) : bool :=
  let n := N_of_ascii c in
  (((9 <=? n) && (n <=? 13)) || ((28 <=? n) && (n <=? 32)) || (n =? 133) || (n =? 160))%N.

Fixpoint lstrip (s : string) : string :=
  match s with
  | EmptyString => EmptyString
  | String c r => if is_space c then lstrip r else s
  end.

Fixpoint rstrip (s : string) : string :=
  match s with
  | EmptyString => EmptyString
  | String c r =>
      match rstrip r with
      | EmptyString => if is_space c then EmptyString else String c EmptyString
      | r' => String c r'
      end
  end.

Definition strip (s : string) : string := rstrip (lstrip s).

(** what the sidebar and the table hand to one run of the script *)
Record Widgets : Type := mkWidgets {
  key_in : string;
  secret_in : string;
  category : string;               (* the selectbox *)
  symbol_in : string;
  settle_in : string;
  refresh_now : bool;              (* "Refresh Now" was clicked *)
  pressed : option nat             (* the row whose button was clicked *)
}.

(** how one run of the script ends *)
Inductive Page : Type :=
| AskCredentials                   (* "Enter your Bybit API Key & Secret" *)
| AskFilter                        (* "Enter Symbol or Settle Coin" *)
| Restart                          (* [st.experimental_rerun()] *)
| FetchError (e : exn)             (* [st.error(e); st.stop()] *)
| NoOpenPositions                  (* "No open positions." *)
| Table (rows : list (Py.dict * string)) (errors : list exn).

(** [if not key_in or not secret_in: ...; st.stop()], then
    [API_KEY, API_SECRET = key_in.strip(), secret_in.strip()] *)
Definition credentials (env : Config) (ui : Widgets) : option Config :=
  if negb (PyStr.truthy (key_in ui)) || negb (PyStr.truthy (secret_in ui))
  then None
  else Some (mkConfig (WEBHOOK_SECRET env) (strip (key_in ui)) (strip (secret_in ui))).

(** [cur = str(pos.get("autoAddMargin","0"))] and the label of the button,
    for a row of a frame without gaps ([Wire.tabular]), where the row is
    the record it came from *)
Definition current_flag (pos : Py.dict) : string :=
  Py.str (default (VStr "0") (Py.dict_get "autoAddMargin" pos)).

Definition button_label (pos : Py.dict) : string :=
  if String.eqb (current_flag pos) "1" then "Disable" else "Enable".

(** the rows as the table shows them, each with the label of its button *)
Definition labelled (rows : DataFrame) : list (Py.dict * string) :=
  List.map (fun pos => (pos, button_label pos)) rows.

(** [df.empty]: no row, or no column *)
Definition df_empty (df : DataFrame) : bool :=
  List.forallb (fun row => match row with [] => true | _ => false end) df.

Section Dashboard.

Context {X : Type}.
Variable serve : X -> Q -> HttpRequest -> X * Transport.

(** [for i,pos in df.iterrows(): ...]: rows are drawn in order; the
    pressed one runs its handler, which either restarts the script or
    shows its error and lets the loop go on *)
Fixpoint draw_rows (cfg : Config) (cat : string) (clicked : option nat) (i : nat)
    (rows : DataFrame) (drawn : list (Py.dict * string)) (errors : list exn)
  : M (X := X) Page :=
  match rows with
  | [] => ret (Table drawn errors)
  | pos :: rest =>
      let drawn' := (drawn ++ [(pos, button_label pos)])%list in
      if bool_decide (clicked = Some i)
      then bind (row_button serve cfg cat pos)
                (fun o =>
                   match o with
                   | Rerun => ret Restart
                   | ShowError e => draw_rows cfg cat clicked (S i) rest drawn'
                                              (errors ++ [e])%list
                   end)
      else draw_rows cfg cat clicked (S i) rest drawn' errors
  end.

(** the script from the filters on, with the credentials settled *)
Definition dashboard_view (cfg : Config) (ui : Widgets) : M (X := X) Page :=
  let symbol := PyStr.upper (strip (symbol_in ui)) in
  let settle_coin := PyStr.upper (strip (settle_in ui)) in
  if negb (PyStr.truthy symbol) && negb (PyStr.truthy settle_coin) then ret AskFilter
  else if refresh_now ui
  then bind (fetch_open_positions_clear) (fun _ => ret Restart)
  else
    bind (catch
            (bind (fetch_open_positions serve (API_KEY cfg) (API_SECRET cfg)
                                        (category ui) symbol settle_coin)
                  (fun df => ret (inr df)))
            (fun e => ret (inl e)))
         (fun read : exn + DataFrame =>
            match read with
            | inl e => ret (FetchError e)
            | inr df =>
                if df_empty df then ret NoOpenPositions
                else draw_rows cfg (category ui) (pressed ui) 0 df [] []
            end).

(** one run of the script; between the credentials and the filters it
    calls [start_webhook], whose state is the [Listener]'s *)
Definition dashboard (env : Config) (ui : Widgets) : M (X := X) Page :=
  match credentials env ui with
  | None => ret AskCredentials
  | Some cfg => dashboard_view cfg ui
  end.

End Dashboard.

(** ** Exchanges that fail, and a dashboard to press *)

Module Bench.

(** an exchange that does not answer, one that answers 503 around a
    well-formed success envelope, and one whose answer is not JSON *)
Inductive outage : Type :=
| Down
| Busy
| Garbled.

Definition failing (x : outage) (t : Q) (r : HttpRequest) : outage * Transport :=
  match x with
  | Down => (x, NoReply)
  | Busy => (x, Reply 503 (Some (Demo.envelope [])))
  | Garbled => (x, Reply 200 None)
  end.

Definition start (x : outage) : World outage := mkWorld (1700000000 # 1) x [] ∅.

(** a row whose flag is neither "0" nor "1" *)
Definition blank_flag_row : Py.dict :=
  [ ("symbol", VStr "ETHUSDT"); ("side", VStr "Sell"); ("autoAddMargin", VStr "") ].

(** the sidebar as an operator leaves it, nothing pressed, and the same
    with the button of the first row pressed *)
Definition idle : Widgets := mkWidgets "key" "secret" "linear" " btcusdt " "USDT" false None.
Definition press : Widgets :=
  mkWidgets "key" "secret" "linear" " btcusdt " "USDT" false (Some 0%nat).

(** the world of [Demo.polled] with an exchange that now rejects *)
Definition rejecting_after_poll : World Demo.exchange_state :=
  mkWorld (now Demo.polled) Demo.Rejecting (sent Demo.polled) (cache Demo.polled).

End Bench.

(** * Properties *)

(** ** The clock and the case mappings on known values *)

(** [int(t*1000)] in binary64: the product can fall short of the
    decimal one *)
Example millis_values :
  millis (1700000000123 # 1000) = 1700000000123%Z
  /\ millis (1001 # 1000) = 1000%Z
  /\ millis (4035 # 1000) = 4035%Z
  /\ millis (1 # 3) = 333%Z
  /\ millis (8193 # 8192) = 1000%Z
  /\ millis (1700000000 # 1) = 1700000000000%Z.
Proof. repeat split; vm_compute; reflexivity. Qed.

(** the sharp s and an accented letter *)
Example case_mappings_latin :
  let sharp := String (ascii_of_N 223) EmptyString in
  let e_acute := String (ascii_of_N 233) EmptyString in
  let E_acute := String (ascii_of_N 201) EmptyString in
  PyStr.upper ("stra" +:+ sharp +:+ "e") = "STRASSE"
  /\ PyStr.capitalize (sharp +:+ "a") = "Ssa"
  /\ PyStr.capitalize (e_acute +:+ "A") = E_acute +:+ "a"
  /\ PyStr.upper (e_acute +:+ "a") = E_acute +:+ "A"
  /\ PyStr.capitalize "bUY" = "Buy".
Proof. repeat split; vm_compute; reflexivity. Qed.

(** ** The hash functions against published vectors *)

Example sha256_abc :
  Hmac.hex (Sha256.sha256 (PyStr.encode "abc"))
  = "ba7816bf8f01cfea414140de5dae2223b00361a396177a9cb410ff61f20015ad".
Proof. vm_compute. reflexivity. Qed.

Example sha256_empty :
  Hmac.hex (Sha256.sha256 [])
  = "e3b0c44298fc1c149afbf4c8996fb92427ae41e4649b934ca495991b7852b855".
Proof. vm_compute. reflexivity. Qed.

Example sha256_two_blocks :
  Hmac.hex (Sha256.sha256
    (PyStr.encode "abcdbcdecdefdefgefghfghighijhijkijkljklmklmnlmnomnopnopq"))
  = "248d6a61d20638b8e5c026930c3e6039a33ce45964ff2167f6ecedd419db06c1".
Proof. vm_compute. reflexivity. Qed.

Example hmac_rfc4231_case2 :
  Hmac.hexdigest (PyStr.encode "Jefe") (PyStr.encode "what do ya want for nothing?")
  = "5bdcc146bf60754e6a042426089575c75a003f089d2739839dec58b964ec3843".
Proof. vm_compute. reflexivity. Qed.

Example hmac_rfc4231_case6 :
  Hmac.hexdigest (List.repeat 170%N 131)
    (PyStr.encode "Test Using Larger Than Block-Size Key - Hash Key First")
  = "60e431591ee0b67f0d8a26aacbf5b77f8e0bc6213728c5140546040f0ee37f54".
Proof. vm_compute. reflexivity. Qed.

Example signature_of_position_query :
  signed_text "1700000000000" "key" RECV_WINDOW
              [("category", VStr "linear"); ("symbol", VStr "BTCUSDT")] ""
  = "1700000000000key5000category=linear&symbol=BTCUSDT"
  /\ generate_signature "secret" "1700000000000" "key" RECV_WINDOW
                        [("category", VStr "linear"); ("symbol", VStr "BTCUSDT")] ""
     = "3906b813750309cce9879a975510651953382a28592d69104d0b599e3d201f40".
Proof. split; vm_compute; reflexivity. Qed.

Open Scope list_scope.

Section Order.

Lemma ascii_compare_refl (c : ascii) : Ascii.compare c c = Eq.
Proof. unfold Ascii.compare. apply N.compare_refl. Qed.

Lemma compare_no_gt_trans (a b c : string) :
  String.compare a b <> Gt -> String.compare b c <> Gt -> String.compare a c <> Gt.
Proof.
  revert b c. induction a as [|x a IH]; intros [|y b] [|z c]; simpl; try congruence.
  unfold Ascii.compare.
  destruct (N.compare_spec (N_of_ascii x) (N_of_ascii y)) as [Exy|Lxy|Gxy];
    destruct (N.compare_spec (N_of_ascii y) (N_of_ascii z)) as [Eyz|Lyz|Gyz];
    destruct (N.compare_spec (N_of_ascii x) (N_of_ascii z)) as [Exz|Lxz|Gxz];
    try congruence; try lia; intros; eauto.
Qed.

#[local] Instance str_le_trans : Transitive Py.str_le.
Proof.
  intros a b c. unfold Py.str_le, String.leb. intros Hab Hbc.
  pose proof (compare_no_gt_trans a b c) as H.
  destruct (String.compare a b), (String.compare b c), (String.compare a c);
    simpl in *; try done; exfalso; apply H; congruence.
Qed.

#[local] Instance str_le_antisym : AntiSymm (=) Py.str_le.
Proof.
  intros a b Hab Hba. apply String.leb_antisym; by apply Is_true_true.
Qed.

#[local] Instance str_le_total : Total Py.str_le.
Proof.
  intros a b. unfold Py.str_le.
  destruct (String.leb_total a b) as [H|H]; rewrite H; simpl; auto.
Qed.

#[local] Instance key_le_total : Total Spec.key_le.
Proof. intros a b. apply str_le_total. Qed.


Lemma sorted_perm_eq (l1 l2 : list string) :
  l1 ≡ₚ l2 -> Py.sorted l1 = Py.sorted l2.
Proof.
  intros Hp. unfold Py.sorted.
  apply (Sorted_unique Py.str_le); try apply Sorted_merge_sort; try apply _.
  rewrite !merge_sort_Permutation. exact Hp.
Qed.

Lemma sorted_keys_of_pairs (q : Py.dict) :
  List.map fst (merge_sort Spec.key_le q) = Py.sorted (Py.keys q).
Proof.
  unfold Py.sorted, Py.keys.
  apply (Sorted_unique Py.str_le); try apply _.
  - apply (Sorted_fmap fst Spec.key_le Py.str_le).
    + intros a b Hab. exact Hab.
    + apply Sorted_merge_sort. apply _.
  - apply Sorted_merge_sort. apply _.
  - transitivity (List.map fst q).
    + apply Permutation_map. apply merge_sort_Permutation.
    + symmetry. apply merge_sort_Permutation.
Qed.

End Order.

Section Dict.

Lemma dict_get_Some_In (k : string) (v : pyval) (d : Py.dict) :
  Py.dict_get k d = Some v -> In (k, v) d.
Proof.
  induction d as [|[k' v'] d IH]; simpl; [discriminate|].
  destruct (String.eqb_spec k k') as [->|Hne].
  - intros [= ->]. by left.
  - intros H. right. by apply IH.
Qed.

Lemma dict_get_None_keys (k : string) (d : Py.dict) :
  Py.dict_get k d = None -> ~ In k (Py.keys d).
Proof.
  induction d as [|[k' v'] d IH]; simpl; [tauto|].
  destruct (String.eqb_spec k k') as [->|Hne]; [discriminate|].
  intros H [Heq|Hin]; [congruence|]. by apply IH.
Qed.

Lemma dict_get_In (k : string) (v : pyval) (d : Py.dict) :
  List.NoDup (Py.keys d) -> In (k, v) d -> Py.dict_get k d = Some v.
Proof.
  induction d as [|[k' v'] d IH]; simpl; [tauto|].
  intros Hnd [Heq|Hin].
  - injection Heq as -> ->. by rewrite String.eqb_refl.
  - inversion Hnd as [|? ? Hnotin Hnd']; subst.
    destruct (String.eqb_spec k k') as [->|Hne].
    + exfalso. apply Hnotin. change k' with (fst (k', v)). by apply in_map.
    + by apply IH.
Qed.

Lemma dict_get_perm (k : string) (p q : Py.dict) :
  List.NoDup (Py.keys p) -> p ≡ₚ q -> Py.dict_get k p = Py.dict_get k q.
Proof.
  intros Hnd Hp.
  assert (Hkeys : Py.keys p ≡ₚ Py.keys q) by (by apply Permutation_map).
  assert (Hndq : List.NoDup (Py.keys q)) by (eapply Permutation_NoDup; eauto).
  destruct (Py.dict_get k p) as [v|] eqn:Hk.
  - symmetry. apply dict_get_In; [done|].
    eapply Permutation_in; [exact Hp|]. by apply dict_get_Some_In.
  - destruct (Py.dict_get k q) as [v|] eqn:Hq; [|done].
    exfalso. apply (dict_get_None_keys _ _ Hk).
    eapply Permutation_in; [symmetry; exact Hkeys|].
    change k with (fst (k, v)). apply in_map. by apply dict_get_Some_In.
Qed.

Lemma build_param_string_perm (p q : Py.dict) :
  List.NoDup (Py.keys p) -> p ≡ₚ q -> _build_param_string p = _build_param_string q.
Proof.
  intros Hnd Hp.
  destruct p as [|a p].
  { apply Permutation_nil in Hp. by subst. }
  destruct q as [|b q].
  { symmetry in Hp. by apply Permutation_nil in Hp. }
  unfold _build_param_string.
  rewrite (sorted_perm_eq (Py.keys (a :: p)) (Py.keys (b :: q)))
    by (by apply Permutation_map).
  f_equal. apply map_ext. intros k. unfold param_field.
  by rewrite (dict_get_perm k _ _ Hnd Hp).
Qed.

Lemma build_param_string_spec (p : Py.dict) :
  List.NoDup (Py.keys p) -> _build_param_string p = Spec.sortedQueryString p.
Proof.
  intros Hnd. unfold Spec.sortedQueryString.
  destruct p as [|a p]; [reflexivity|].
  unfold _build_param_string.
  rewrite <- sorted_keys_of_pairs, List.map_map.
  f_equal. apply map_ext_in. intros [k v] Hin. unfold param_field. cbn [fst snd].
  rewrite (dict_get_In k v (a :: p) Hnd); [reflexivity|].
  eapply Permutation_in; [apply (merge_sort_Permutation Spec.key_le)|exact Hin].
Qed.

End Dict.

Section Hex.

Lemma nibble_bound (b : N) : (N.land b 15 < 16)%N.
Proof.
  change 15%N with (N.ones 4). rewrite N.land_ones.
  apply N.mod_lt. discriminate.
Qed.

Lemma hex_digit_lower (n : N) :
  (n < 16)%N -> Spec.is_lower_hex (Hmac.hex_digit n) = true.
Proof.
  intros Hn.
  assert (Hcases : In n [0;1;2;3;4;5;6;7;8;9;10;11;12;13;14;15]%N).
  { simpl. lia. }
  simpl in Hcases.
  repeat (destruct Hcases as [<-|Hcases]; [reflexivity|]). contradiction.
Qed.

Lemma hex_lower (bs : list N) :
  forallb Spec.is_lower_hex (list_ascii_of_string (Hmac.hex bs)) = true.
Proof.
  induction bs as [|b bs IH]; [reflexivity|].
  cbn [Hmac.hex list_ascii_of_string forallb].
  rewrite !hex_digit_lower by apply nibble_bound. exact IH.
Qed.

Lemma hex_length (bs : list N) :
  String.length (Hmac.hex bs) = (2 * List.length bs)%nat.
Proof. induction bs as [|b bs IH]; simpl; [done|]. rewrite IH. lia. Qed.

Lemma sha256_length (msg : list N) : List.length (Sha256.sha256 msg) = 32%nat.
Proof.
  unfold Sha256.sha256.
  destruct (Sha256.digest_state msg) as [[[[[[[a b] c] d] e] f] g] h].
  reflexivity.
Qed.

Lemma hexdigest_length (key msg : list N) :
  String.length (Hmac.hexdigest key msg) = 64%nat.
Proof.
  unfold Hmac.hexdigest, Hmac.digest. by rewrite hex_length, sha256_length.
Qed.

End Hex.

(** C3.  [generate_signature] is the lowercase hexadecimal text (64
    characters, each in 0-9a-f) of HMAC-SHA256 under the secret of the
    canonical string: timestamp, API key, receive window, sorted query
    string and body, one after the other with nothing between. *)
Theorem generate_signature_hex_hmac
    (secret ts api_key : string) (recv_window : Z) (params : Py.dict) (body_str : string) :
  List.NoDup (Py.keys params) ->
  generate_signature secret ts api_key recv_window params body_str
  = Hmac.hex (Hmac.digest (PyStr.encode secret)
       (PyStr.encode (Spec.canonicalString ts api_key recv_window params body_str)))
  /\ String.length (generate_signature secret ts api_key recv_window params body_str) = 64%nat
  /\ forallb Spec.is_lower_hex
       (list_ascii_of_string
          (generate_signature secret ts api_key recv_window params body_str)) = true.
Proof.
  intros Hnd. split; [|split].
  - unfold generate_signature, signed_text, Spec.canonicalString, Hmac.hexdigest.
    by rewrite build_param_string_spec.
  - apply hexdigest_length.
  - apply hex_lower.
Qed.

Section Cache.

Context {X : Type}.
Variable serve : X -> Q -> HttpRequest -> X * Transport.

Implicit Types (w : World X) (key secret category symbol settle_coin : string).

Lemma request_effect (r : HttpRequest) w :
  let w' := snd (request serve r w) in
  sent w' = sent w ++ [r] /\ now w' = now w /\ cache w' = cache w.
Proof.
  unfold request. destruct (serve (exchange w) (now w) r) as [x' [|status j]]; simpl; auto.
Qed.

Lemma call_effect key secret category symbol settle_coin w :
  let w' := snd (fetch_open_positions_call serve key secret category symbol settle_coin w) in
  sent w' = sent w ++ [positions_request key secret category symbol settle_coin (now w)]
  /\ now w' = now w /\ cache w' = cache w.
Proof.
  unfold fetch_open_positions_call, bind, clock, lift. cbn [fst snd].
  pose proof (request_effect
    (positions_request key secret category symbol settle_coin (now w)) w) as H.
  cbn zeta in H.
  destruct (request serve _ w) as [[e|r] w1]; cbn [snd] in *; [exact H|].
  destruct (read_json r) as [e|j]; cbn [snd]; [exact H|].
  destruct (check_envelope j) as [e|[]]; cbn [snd]; exact H.
Qed.

Lemma fetch_hit key secret category symbol settle_coin w stored df :
  cache w !! (key, secret, category, symbol, settle_coin) = Some (stored, df) ->
  (now w < stored + ttl)%Q ->
  fetch_open_positions serve key secret category symbol settle_coin w = (inr df, w).
Proof.
  intros Hk Hfresh. unfold fetch_open_positions. cbv zeta. rewrite Hk.
  destruct (Qlt_le_dec (now w) (stored + ttl)%Q) as [_|Hle]; [reflexivity|].
  exfalso. apply (Qlt_not_le _ _ Hfresh Hle).
Qed.

(** a get that finds no usable entry sends exactly one request, and
    stores what it read under the key alone *)
Lemma fetch_miss key secret category symbol settle_coin w :
  let k : CacheKey := (key, secret, category, symbol, settle_coin) in
  (forall stored df, cache w !! k = Some (stored, df) -> (stored + ttl <= now w)%Q) ->
  let out := fetch_open_positions serve key secret category symbol settle_coin w in
  sent (snd out) = sent w ++ [positions_request key secret category symbol settle_coin (now w)]
  /\ now (snd out) = now w
  /\ (forall k', k' <> k -> cache (snd out) !! k' = cache w !! k')
  /\ (forall df, fst out = inr df -> cache (snd out) !! k = Some (now w, df)).
Proof.
  intros k Hstale out. subst out. unfold fetch_open_positions. cbv zeta. fold k.
  destruct (cache w !! k) as [[stored df0]|] eqn:Hk.
  - destruct (Qlt_le_dec (now w) (stored + ttl)%Q) as [Hlt|_].
    { exfalso. apply (Qlt_not_le _ _ Hlt). by eapply Hstale. }
    pose proof (call_effect key secret category symbol settle_coin
      (mkWorld (now w) (exchange w) (sent w) (delete k (cache w)))) as (Hs & Hn & Hc).
    cbn zeta in *. cbn [now sent cache] in Hs, Hn, Hc.
    destruct (fetch_open_positions_call _ _ _ _ _ _ _) as [[e|df] w']; cbn [fst snd now sent cache] in *.
    + rewrite Hs, Hn, Hc. repeat split; try done.
      intros k' Hne. by rewrite lookup_delete_ne.
    + rewrite Hs, Hn. repeat split; try done.
      * intros k' Hne. rewrite lookup_insert_ne by done. rewrite Hc.
        by rewrite lookup_delete_ne.
      * intros df' [= ->]. by rewrite lookup_insert_eq.
  - pose proof (call_effect key secret category symbol settle_coin w) as (Hs & Hn & Hc).
    cbn zeta in *.
    destruct (fetch_open_positions_call _ _ _ _ _ _ _) as [[e|df] w']; cbn [fst snd now sent cache] in *.
    + rewrite Hs, Hn, Hc. repeat split; done.
    + rewrite Hs, Hn. repeat split; try done.
      * intros k' Hne. rewrite lookup_insert_ne by done. by rewrite Hc.
      * intros df' [= ->]. by rewrite lookup_insert_eq.
Qed.

Lemma snoc_neq {A : Type} (l : list A) (x : A) : l <> l ++ [x].
Proof.
  intros H. apply (f_equal List.length) in H. rewrite length_app in H. simpl in H. lia.
Qed.

(** a get that sent a request found no usable entry *)
Lemma fetched_was_miss key secret category symbol settle_coin w w1 r (df : DataFrame) :
  fetch_open_positions serve key secret category symbol settle_coin w = (inr df, w1) ->
  sent w1 = sent w ++ [r] ->
  forall stored df0,
    cache w !! (key, secret, category, symbol, settle_coin) = Some (stored, df0) ->
    (stored + ttl <= now w)%Q.
Proof.
  intros Hget Hsent stored df0 Hk.
  destruct (Qlt_le_dec (now w) (stored + ttl)%Q) as [Hlt|Hle]; [|exact Hle].
  rewrite (fetch_hit _ _ _ _ _ _ _ _ Hk Hlt) in Hget.
  injection Hget as _ <-. exfalso. by eapply snoc_neq.
Qed.


(** C4.  After a get that fetched and returned a frame, a get for the
    same arguments before [ttl] seconds have passed returns that frame
    and sends nothing; once [ttl] seconds have passed it sends exactly
    one request; and [ttl] is the refresh interval less one second,
    9 seconds for 10000 ms. *)
Theorem cache_ttl key secret category symbol settle_coin w0 w1 w2 (df : DataFrame) :
  let k : CacheKey := (key, secret, category, symbol, settle_coin) in
  let get := fetch_open_positions serve key secret category symbol settle_coin in
  let fetch := positions_request key secret category symbol settle_coin in
  get w0 = (inr df, w1) ->
  sent w1 = sent w0 ++ [fetch (now w0)] ->
  cache w2 !! k = cache w1 !! k ->
  ((now w2 < now w0 + ttl)%Q -> get w2 = (inr df, w2))
  /\ ((now w0 + ttl <= now w2)%Q -> sent (snd (get w2)) = sent w2 ++ [fetch (now w2)])
  /\ (ttl * 1000 == inject_Z REFRESH_INTERVAL - 1000)%Q
  /\ (ttl == 9)%Q.
Proof.
  intros k get fetch Hget Hsent Hkeep.
  pose proof (fetched_was_miss _ _ _ _ _ _ _ _ _ Hget Hsent) as Hmiss.
  pose proof (fetch_miss key secret category symbol settle_coin w0 Hmiss) as (_ & _ & _ & Hst).
  fold get in Hst. rewrite Hget in Hst. cbn [fst snd] in Hst.
  specialize (Hst df eq_refl). fold k in Hst, Hkeep. rewrite Hst in Hkeep.
  split; [|split; [|split]].
  - intros Hlt. by apply (fetch_hit _ _ _ _ _ _ _ _ Hkeep).
  - intros Hle.
    apply (fetch_miss key secret category symbol settle_coin w2).
    intros stored df0 Hk. fold k in Hk. rewrite Hkeep in Hk. by injection Hk as <- <-.
  - reflexivity.
  - reflexivity.
Qed.

(** C2, amended.  The cache key is the tuple of the five arguments.
    After a get that fetched and returned a frame, a get with the same
    five arguments within [ttl] returns that frame without a request; a
    get that differs in any argument, an unused settle coin included,
    finds its own entry as it was before, and fetches when it had
    none. *)
Theorem cache_key_is_argument_tuple
    key1 secret1 category1 symbol1 settle_coin1
    key2 secret2 category2 symbol2 settle_coin2 w0 w1 (df : DataFrame) :
  let k1 : CacheKey := (key1, secret1, category1, symbol1, settle_coin1) in
  let k2 : CacheKey := (key2, secret2, category2, symbol2, settle_coin2) in
  let get1 := fetch_open_positions serve key1 secret1 category1 symbol1 settle_coin1 in
  let get2 := fetch_open_positions serve key2 secret2 category2 symbol2 settle_coin2 in
  get1 w0 = (inr df, w1) ->
  sent w1 = sent w0 ++ [positions_request key1 secret1 category1 symbol1 settle_coin1 (now w0)] ->
  (k2 = k1 ->
   forall w2, cache w2 !! k1 = cache w1 !! k1 -> (now w2 < now w0 + ttl)%Q ->
              get2 w2 = (inr df, w2))
  /\ (k2 <> k1 ->
      cache w1 !! k2 = cache w0 !! k2
      /\ forall w2, cache w2 !! k2 = cache w1 !! k2 -> cache w0 !! k2 = None ->
           sent (snd (get2 w2))
           = sent w2 ++ [positions_request key2 secret2 category2 symbol2 settle_coin2 (now w2)]).
Proof.
  intros k1 k2 get1 get2 Hget Hsent. subst k1 k2 get1 get2.
  pose proof (fetched_was_miss _ _ _ _ _ _ _ _ _ Hget Hsent) as Hmiss.
  pose proof (fetch_miss key1 secret1 category1 symbol1 settle_coin1 w0 Hmiss)
    as (_ & _ & Hother & Hst).
  rewrite Hget in Hother, Hst. cbn [fst snd] in Hother, Hst.
  split.
  - intros Heq w2 Hkeep Hlt. injection Heq as -> -> -> -> ->.
    eapply fetch_hit; [|exact Hlt]. rewrite Hkeep. by apply Hst.
  - intros Hne. split; [by apply Hother|].
    intros w2 Hkeep Hnone.
    apply (fetch_miss key2 secret2 category2 symbol2 settle_coin2 w2).
    intros stored df0 Hk. rewrite Hkeep, (Hother _ Hne), Hnone in Hk.
    discriminate.
Qed.

Lemma fetch_after_clear key secret category symbol settle_coin w :
  cache w = ∅ ->
  sent (snd (fetch_open_positions serve key secret category symbol settle_coin w))
  = sent w ++ [positions_request key secret category symbol settle_coin (now w)].
Proof.
  intros Hc. apply (fetch_miss key secret category symbol settle_coin w).
  intros stored df. rewrite Hc, lookup_empty. discriminate.
Qed.

End Cache.

Section Webhook.

Context {X : Type}.
Variable serve : X -> Q -> HttpRequest -> X * Transport.
Variable describe : exn -> string.

Implicit Types (w : World X) (cfg : Config) (req : Request) (d : Py.dict).

Lemma set_margin_effect (key secret : string) (category symbol side : pyval)
    (enable : bool) w :
  let w' := snd (set_auto_add_margin serve key secret category symbol side enable w) in
  sent w' = sent w ++ [margin_request key secret category symbol side enable (now w)]
  /\ now w' = now w /\ cache w' = cache w.
Proof.
  unfold set_auto_add_margin, bind, clock, lift, ret. cbn [fst snd].
  pose proof (request_effect serve
    (margin_request key secret category symbol side enable (now w)) w) as H.
  cbn zeta in H.
  destruct (request serve _ w) as [[e|r] w1]; cbn [snd] in *; [exact H|].
  destruct (read_json r) as [e|j]; cbn [snd]; [exact H|].
  destruct (check_envelope j) as [e|[]]; cbn [snd]; exact H.
Qed.

Lemma read_fields_complete d (s sd a : string) (c : pyval) :
  Spec.complete d s sd a c ->
  read_fields (VDict d)
  = inr (PyStr.upper s, PyStr.capitalize sd, PyStr.lower a, c,
         default (VStr "") (Py.dict_get "settleCoin" d)).
Proof.
  intros (Hs & Hsd & Ha & Hc). unfold read_fields, subscript, get_default.
  rewrite Hs, Hsd, Ha, Hc. cbn. by destruct (Py.dict_get "settleCoin" d).
Qed.

(** a request that passes authentication and validation reaches the
    exchange with the normalised fields *)
Lemma webhook_complete cfg req w d (s sd a : string) (c : pyval) :
  authenticate cfg req = inr tt ->
  body req = Some (VDict d) ->
  Spec.complete d s sd a c ->
  webhook serve describe cfg req w
  = bind (catch (set_auto_add_margin serve (API_KEY cfg) (API_SECRET cfg) c
                   (VStr (PyStr.upper s)) (VStr (PyStr.capitalize sd))
                   (String.eqb (PyStr.lower a) "enable"))
                (fun e => raise (HTTPException 500 (str_exn describe e))))
         (fun res => bind (catch fetch_open_positions_clear (fun _ => ret tt))
                          (fun _ => ret (VDict [("status", VStr "ok"); ("result", res)])))
         w.
Proof.
  intros Hauth Hbody Hd. unfold webhook, parse.
  unfold bind at 1, lift at 1. rewrite Hauth.
  unfold bind at 1, lift at 1. rewrite Hbody.
  unfold bind at 1, lift at 1. rewrite (read_fields_complete _ _ _ _ _ Hd).
  reflexivity.
Qed.

Lemma webhook_complete_sent cfg req w d (s sd a : string) (c : pyval) :
  authenticate cfg req = inr tt ->
  body req = Some (VDict d) ->
  Spec.complete d s sd a c ->
  sent (snd (webhook serve describe cfg req w))
  = sent w ++ [margin_request (API_KEY cfg) (API_SECRET cfg) c
                 (VStr (PyStr.upper s)) (VStr (PyStr.capitalize sd))
                 (String.eqb (PyStr.lower a) "enable") (now w)]
  /\ forall detail, fst (webhook serve describe cfg req w) <> inl (HTTPException 400 detail).
Proof.
  intros Hauth Hbody Hd. rewrite (webhook_complete _ _ _ _ _ _ _ _ Hauth Hbody Hd).
  pose proof (set_margin_effect (API_KEY cfg) (API_SECRET cfg) c
    (VStr (PyStr.upper s)) (VStr (PyStr.capitalize sd))
    (String.eqb (PyStr.lower a) "enable") w) as (Hs & _).
  unfold bind, catch, raise, ret, fetch_open_positions_clear.
  destruct (set_auto_add_margin _ _ _ _ _ _ _ _) as [[e|res] w1]; cbn [fst snd sent] in *.
  - split; [exact Hs|]. intros detail [=].
  - split; [exact Hs|]. intros detail [=].
Qed.

Lemma webhook_success_clears cfg req w w' (v : pyval) :
  webhook serve describe cfg req w = (inr v, w') -> cache w' = ∅.
Proof.
  unfold webhook, bind, catch, lift, raise, ret, fetch_open_positions_clear.
  destruct (authenticate cfg req) as [e|[]]; [intros [=]|].
  destruct (body req) as [data|]; [|intros [=]].
  destruct (parse describe data) as [e|[[[[sym side] act] cat] settle]]; [intros [=]|].
  destruct (set_auto_add_margin _ _ _ _ _ _ _ _) as [[e|res] w1]; [intros [=]|].
  intros [= _ <-]. reflexivity.
Qed.

Lemma row_button_success_clears cfg (category : string) (pos : Py.dict) w w' :
  row_button serve cfg category pos w = (inr Rerun, w') -> cache w' = ∅.
Proof.
  unfold row_button, bind, catch, lift, raise, ret, fetch_open_positions_clear.
  destruct (subscript (VDict pos) "symbol") as [e|sym]; [intros [=]|].
  destruct (subscript (VDict pos) "side") as [e|side]; [intros [=]|].
  destruct (set_auto_add_margin _ _ _ _ _ _ _ _) as [[e|res] w1]; [intros [=]|].
  intros [= <-]. reflexivity.
Qed.


Lemma post_webhook_raised cfg req w (e : exn) w' :
  webhook serve describe cfg req w = (inl e, w') ->
  post_webhook serve describe cfg req w = (respond (inl e), w').
Proof. unfold post_webhook. by intros ->. Qed.

Lemma read_fields_missing d (f : string) :
  In f Spec.required ->
  Py.dict_get f d = None ->
  Forall (fun g => exists s, Py.dict_get g d = Some (VStr s)) (Spec.before f Spec.required) ->
  parse describe (VDict d) = inl (HTTPException 400 ("Missing '" +:+ f +:+ "'")).
Proof.
  intros Hin Hnone Hbefore. unfold parse, read_fields, subscript.
  simpl in Hin. destruct Hin as [<-|[<-|[<-|[<-|[]]]]]; cbn in Hbefore.
  - by rewrite Hnone.
  - apply Forall_cons_1 in Hbefore as [[s ->] _]. cbn. by rewrite Hnone.
  - apply Forall_cons_1 in Hbefore as [[s ->] Hbefore].
    apply Forall_cons_1 in Hbefore as [[sd ->] _]. cbn. by rewrite Hnone.
  - apply Forall_cons_1 in Hbefore as [[s ->] Hbefore].
    apply Forall_cons_1 in Hbefore as [[sd ->] Hbefore].
    apply Forall_cons_1 in Hbefore as [[a ->] _]. cbn. by rewrite Hnone.
Qed.

(** C7, amended.  For a request that passes authentication and whose
    body is a JSON object: if a required field is absent and the
    required fields read before it are text, the answer is 400 with the
    detail "Missing '<field>'", the name in single quotes, and nothing
    is sent to the exchange; a body with the four required fields and
    no [settleCoin] is not answered 400 and reaches the exchange. *)
Theorem missing_field_is_400 cfg req w d :
  authenticate cfg req = inr tt ->
  body req = Some (VDict d) ->
  (forall f,
      In f Spec.required ->
      Py.dict_get f d = None ->
      Forall (fun g => exists s, Py.dict_get g d = Some (VStr s))
             (Spec.before f Spec.required) ->
      post_webhook serve describe cfg req w
      = ((400%Z, VDict [("detail", VStr ("Missing '" +:+ f +:+ "'"))]), w))
  /\ (forall (s sd a : string) (c : pyval),
         Spec.complete d s sd a c ->
         Py.dict_get "settleCoin" d = None ->
         fst (fst (post_webhook serve describe cfg req w)) <> 400%Z
         /\ sent (snd (post_webhook serve describe cfg req w))
            = sent w ++ [margin_request (API_KEY cfg) (API_SECRET cfg) c
                           (VStr (PyStr.upper s)) (VStr (PyStr.capitalize sd))
                           (String.eqb (PyStr.lower a) "enable") (now w)]).
Proof.
  intros Hauth Hbody. split.
  - intros f Hin Hnone Hbefore.
    apply (post_webhook_raised cfg req w
             (HTTPException 400 ("Missing '" +:+ f +:+ "'")) w).
    unfold webhook. unfold bind at 1, lift at 1. rewrite Hauth.
    unfold bind at 1, lift at 1. rewrite Hbody.
    unfold bind at 1, lift at 1.
    by rewrite (read_fields_missing d f Hin Hnone Hbefore).
  - intros s sd a c Hd _.
    unfold post_webhook.
    rewrite (webhook_complete _ _ _ _ _ _ _ _ Hauth Hbody Hd).
    pose proof (set_margin_effect (API_KEY cfg) (API_SECRET cfg) c
      (VStr (PyStr.upper s)) (VStr (PyStr.capitalize sd))
      (String.eqb (PyStr.lower a) "enable") w) as (Hs & _).
    unfold bind, catch, raise, ret, fetch_open_positions_clear.
    destruct (set_auto_add_margin _ _ _ _ _ _ _ _) as [[e|res] w1];
      cbn [fst snd sent respond] in *; split; try exact Hs; discriminate.
Qed.

End Webhook.

Section Envelope.

Context {X : Type}.
Variable serve : X -> Q -> HttpRequest -> X * Transport.

Implicit Types (w : World X).

(** what the call returns is decided by the reply alone *)
Lemma call_result key secret category symbol settle_coin w x' (status : Z) (j : pyval) :
  serve (exchange w) (now w)
        (positions_request key secret category symbol settle_coin (now w))
  = (x', Reply status (Some j)) ->
  raise_for_status status = inr tt ->
  fst (fetch_open_positions_call serve key secret category symbol settle_coin w)
  = (do _ <- check_envelope j; result_frame j).
Proof.
  intros Hreply Hstatus.
  unfold fetch_open_positions_call, bind, clock, lift, request. cbn [fst snd].
  rewrite Hreply. unfold read_json. cbn [fst snd]. rewrite Hstatus. cbn [E_bind].
  by destruct (check_envelope j) as [e|[]].
Qed.

(** a get that finds no usable entry returns what the call returns *)
Lemma fetch_miss_result key secret category symbol settle_coin w :
  (forall stored df,
      cache w !! (key, secret, category, symbol, settle_coin) = Some (stored, df) ->
      (stored + ttl <= now w)%Q) ->
  fst (fetch_open_positions serve key secret category symbol settle_coin w)
  = fst (fetch_open_positions_call serve key secret category symbol settle_coin w).
Proof.
  intros Hstale. unfold fetch_open_positions. cbv zeta.
  destruct (cache w !! _) as [[stored df0]|] eqn:Hk.
  - destruct (Qlt_le_dec (now w) (stored + ttl)%Q) as [Hlt|_].
    { exfalso. apply (Qlt_not_le _ _ Hlt). by eapply Hstale. }
    unfold fetch_open_positions_call, bind, clock, lift, request.
    cbn [fst snd now exchange sent cache].
    destruct (serve _ _ _) as [x' [|status j]]; cbn [fst snd]; [done|].
    destruct (read_json _) as [e|j']; cbn [fst snd]; [done|].
    destruct (check_envelope j') as [e|[]]; cbn [fst snd]; [done|].
    by destruct (result_frame j').
  - by destruct (fetch_open_positions_call _ _ _ _ _ _ _) as [[e|df] w'].
Qed.

(** C5.  When the exchange answers the position query with an envelope
    whose [retCode] is not zero, the read fails with a [RuntimeError]
    whose text is that code and the exchange's message; when the
    envelope is a success (no [retCode], or a zero one) and its result
    list is empty, the read returns the empty frame and no error. *)
Theorem envelope_outcomes key secret category symbol settle_coin w x'
    (status : Z) (d : Py.dict) :
  (forall stored df,
      cache w !! (key, secret, category, symbol, settle_coin) = Some (stored, df) ->
      (stored + ttl <= now w)%Q) ->
  serve (exchange w) (now w)
        (positions_request key secret category symbol settle_coin (now w))
  = (x', Reply status (Some (VDict d))) ->
  raise_for_status status = inr tt ->
  let out := fst (fetch_open_positions serve key secret category symbol settle_coin w) in
  (forall code msg : pyval,
      Py.dict_get "retCode" d = Some code ->
      Py.ne_zero code = true ->
      Py.dict_get "retMsg" d = Some msg ->
      out = inl (RuntimeError (Py.str code +:+ ": " +:+ Py.str msg)))
  /\ (forall r : Py.dict,
         Py.ne_zero (default (VInt 0) (Py.dict_get "retCode" d)) = false ->
         Py.dict_get "result" d = Some (VDict r) ->
         Py.dict_get "list" r = Some (VList []) ->
         out = inr []).
Proof.
  intros Hstale Hreply Hstatus out. subst out.
  rewrite (fetch_miss_result _ _ _ _ _ _ Hstale).
  rewrite (call_result _ _ _ _ _ _ _ _ _ Hreply Hstatus).
  unfold check_envelope, get_default, subscript, result_frame. split.
  - intros code msg Hcode Hne Hmsg. rewrite Hcode, Hmsg. cbn [E_bind].
    rewrite Hne. reflexivity.
  - intros r Hzero Hres Hlist.
    destruct (Py.dict_get "retCode" d) as [c|]; simpl in Hzero; cbn [E_bind];
      [rewrite Hzero|]; cbn; rewrite Hres; cbn; rewrite Hlist; reflexivity.
Qed.

End Envelope.

Section Toggle.

Context {X : Type}.
Variable serve : X -> Q -> HttpRequest -> X * Transport.
Variable describe : exn -> string.

Implicit Types (w : World X) (cfg : Config) (req : Request) (d : Py.dict).

(** C1.  When the webhook handler returns its acknowledgment, or the
    row button finishes its toggle and asks for a rerun, the cache is
    empty; and from any later world whose cache is still that one, a get
    for any arguments, at any clock reading, sends a position request to
    the exchange. *)
Theorem toggle_invalidates_cache cfg w w' :
  (exists req v, webhook serve describe cfg req w = (inr v, w'))
  \/ (exists category pos, row_button serve cfg category pos w = (inr Rerun, w')) ->
  cache w' = ∅
  /\ forall key secret category symbol settle_coin w2,
       cache w2 = cache w' ->
       sent (snd (fetch_open_positions serve key secret category symbol settle_coin w2))
       = sent w2 ++ [positions_request key secret category symbol settle_coin (now w2)].
Proof.
  intros Hdone.
  assert (Hempty : cache w' = ∅).
  { destruct Hdone as [(req & v & Hrun)|(category & pos & Hrun)].
    - by eapply webhook_success_clears.
    - by eapply row_button_success_clears. }
  split; [exact Hempty|].
  intros key secret category symbol settle_coin w2 Hsame.
  apply fetch_after_clear. by rewrite Hsame.
Qed.

(** C8.  For a request that passes authentication and validation, the
    flag sent to the exchange is true exactly when the lowercased action
    is "enable"; whatever the action says, the margin request goes out
    and the handler does not answer 400. *)
Theorem action_decides_enable cfg req w d (s sd a : string) (c : pyval) :
  authenticate cfg req = inr tt ->
  body req = Some (VDict d) ->
  Spec.complete d s sd a c ->
  let enable := String.eqb (PyStr.lower a) "enable" in
  (enable = true <-> PyStr.lower a = "enable"%string)
  /\ sent (snd (webhook serve describe cfg req w))
     = sent w ++ [margin_request (API_KEY cfg) (API_SECRET cfg) c
                    (VStr (PyStr.upper s)) (VStr (PyStr.capitalize sd)) enable (now w)]
  /\ subscript (margin_body c (VStr (PyStr.upper s)) (VStr (PyStr.capitalize sd)) enable)
               "autoAddMargin"
     = inr (VStr (if enable then "1" else "0"))
  /\ forall detail,
       fst (webhook serve describe cfg req w) <> inl (HTTPException 400 detail).
Proof.
  intros Hauth Hbody Hd enable.
  destruct (webhook_complete_sent serve describe cfg req w d s sd a c Hauth Hbody Hd)
    as [Hsent Hnot400].
  split; [apply String.eqb_eq|]. split; [exact Hsent|]. split; [reflexivity|exact Hnot400].
Qed.

Lemma upper_ascii (s : string) :
  PyStr.is_ascii s = true -> PyStr.upper s = Spec.uppercased s.
Proof.
  induction s as [|c s IH]; [reflexivity|].
  cbn [PyStr.is_ascii]. intros H. apply andb_prop in H as [Hc Hs].
  cbn [PyStr.upper Spec.uppercased Spec.map_letters]. fold (Spec.uppercased s).
  rewrite <- (IH Hs). clear IH Hs.
  by destruct c as [[] [] [] [] [] [] [] []].
Qed.

Lemma lower_ascii (s : string) :
  PyStr.is_ascii s = true -> PyStr.lower s = Spec.map_letters Spec.lower_letter s.
Proof.
  induction s as [|c s IH]; [reflexivity|].
  cbn [PyStr.is_ascii]. intros H. apply andb_prop in H as [Hc Hs].
  unfold PyStr.lower in *. cbn [PyStr.str_map Spec.map_letters].
  rewrite <- (IH Hs). clear IH Hs.
  by destruct c as [[] [] [] [] [] [] [] []].
Qed.

Lemma capitalize_ascii (s : string) :
  PyStr.is_ascii s = true -> PyStr.capitalize s = Spec.capitalized s.
Proof.
  destruct s as [|c s]; [reflexivity|].
  cbn [PyStr.is_ascii]. intros H. apply andb_prop in H as [Hc Hs].
  cbn [PyStr.capitalize Spec.capitalized]. rewrite <- (lower_ascii s Hs). clear Hs.
  by destruct c as [[] [] [] [] [] [] [] []].
Qed.

(** C10.  For a request that passes authentication and validation, and
    whose symbol and side are text whose capitals stay below code point
    256, the handler is the margin toggle called with the symbol
    uppercased and the side capitalized: the one request sent carries
    [symbol.upper()] and [side.capitalize()].  On text of the letters a
    to z and other ASCII characters these are the symbol with every
    letter made upper case, and the side with its first letter upper and
    the rest lower.  So two such requests whose symbols agree after
    uppercasing and whose sides agree after capitalizing, with the same
    action and category, behave alike: same exchange request, same
    answer, same resulting world. *)
Theorem symbol_and_side_normalised cfg req1 req2 w d1 d2
    (s1 sd1 s2 sd2 a : string) (c : pyval) :
  authenticate cfg req1 = inr tt ->
  body req1 = Some (VDict d1) ->
  Spec.complete d1 s1 sd1 a c ->
  authenticate cfg req2 = inr tt ->
  body req2 = Some (VDict d2) ->
  Spec.complete d2 s2 sd2 a c ->
  PyStr.cased_within s1 = true -> PyStr.cased_within sd1 = true ->
  PyStr.cased_within s2 = true -> PyStr.cased_within sd2 = true ->
  sent (snd (webhook serve describe cfg req1 w))
  = sent w ++ [margin_request (API_KEY cfg) (API_SECRET cfg) c
                 (VStr (PyStr.upper s1)) (VStr (PyStr.capitalize sd1))
                 (String.eqb (PyStr.lower a) "enable") (now w)]
  /\ (PyStr.is_ascii s1 = true -> PyStr.upper s1 = Spec.uppercased s1)
  /\ (PyStr.is_ascii sd1 = true -> PyStr.capitalize sd1 = Spec.capitalized sd1)
  /\ (PyStr.upper s1 = PyStr.upper s2 ->
      PyStr.capitalize sd1 = PyStr.capitalize sd2 ->
      post_webhook serve describe cfg req1 w = post_webhook serve describe cfg req2 w).
Proof.
  intros Hauth1 Hbody1 Hd1 Hauth2 Hbody2 Hd2 _ _ _ _.
  split; [|split; [|split]].
  - apply (webhook_complete_sent serve describe cfg req1 w d1 s1 sd1 a c); assumption.
  - apply upper_ascii.
  - apply capitalize_ascii.
  - intros Hsym Hside. unfold post_webhook.
    rewrite (webhook_complete serve describe _ _ _ _ _ _ _ _ Hauth1 Hbody1 Hd1).
    rewrite (webhook_complete serve describe _ _ _ _ _ _ _ _ Hauth2 Hbody2 Hd2).
    by rewrite Hsym, Hside.
Qed.

(** the part of the authentication step that holds as written: with a
    non-empty secret configured, a header that differs from the secret
    once every "Bearer " is removed is answered 401 and the world is
    left as it was *)
Lemma wrong_header_is_401 cfg req w (secret : string) :
  WEBHOOK_SECRET cfg = Some secret ->
  secret <> ""%string ->
  PyStr.replace (default ""%string (authorization req)) "Bearer " "" <> secret ->
  post_webhook serve describe cfg req w
  = ((401%Z, VDict [("detail"%string, VStr "Invalid webhook secret")]), w).
Proof.
  intros Hcfg Hne Hdiff. unfold post_webhook, webhook, authenticate.
  unfold bind at 1, lift at 1. rewrite Hcfg.
  destruct secret as [|c r]; [done|]. cbn [PyStr.truthy].
  apply String.eqb_neq in Hdiff. rewrite Hdiff. reflexivity.
Qed.

(** without a secret, or with an empty one, the step lets every request
    through *)
Lemma no_secret_skips_authentication cfg req :
  WEBHOOK_SECRET cfg = None \/ WEBHOOK_SECRET cfg = Some ""%string ->
  authenticate cfg req = inr tt.
Proof. unfold authenticate. by intros [->| ->]. Qed.

(** what the authentication step does: with a non-empty secret
    configured, a request whose [Authorization] header, once every
    "Bearer " in it is removed, differs from the secret is answered 401
    "Invalid webhook secret" and nothing is sent to the exchange; with no
    secret, or an empty one, the step is skipped *)
Theorem authentication_compares_stripped_header cfg req w :
  (forall secret : string,
      WEBHOOK_SECRET cfg = Some secret ->
      secret <> ""%string ->
      PyStr.replace (default ""%string (authorization req)) "Bearer " "" <> secret ->
      post_webhook serve describe cfg req w
      = ((401%Z, VDict [("detail"%string, VStr "Invalid webhook secret")]), w))
  /\ (WEBHOOK_SECRET cfg = None \/ WEBHOOK_SECRET cfg = Some ""%string ->
      authenticate cfg req = inr tt).
Proof.
  split.
  - intros secret. apply wrong_header_is_401.
  - apply no_secret_skips_authentication.
Qed.

End Toggle.

(** C9.  Two parameter maps that hold the same pairs in different
    insertion orders give the same query string, the same signed text and
    the same signature; that string is the pairs sorted by key and joined
    with "&", and the empty map gives the empty string. *)
Theorem query_order_is_irrelevant (p q : Py.dict)
    (secret ts api_key : string) (recv_window : Z) (body_str : string) :
  List.NoDup (Py.keys p) ->
  p ≡ₚ q ->
  _build_param_string p = _build_param_string q
  /\ signed_text ts api_key recv_window p body_str
     = signed_text ts api_key recv_window q body_str
  /\ generate_signature secret ts api_key recv_window p body_str
     = generate_signature secret ts api_key recv_window q body_str
  /\ _build_param_string p = Spec.sortedQueryString p
  /\ _build_param_string [] = ""%string.
Proof.
  intros Hnd Hperm.
  pose proof (build_param_string_perm p q Hnd Hperm) as Heq.
  unfold generate_signature, signed_text. rewrite Heq.
  repeat split. rewrite <- Heq. by apply build_param_string_spec.
Qed.

(** * The program run against the small exchange *)

(** a run that is known by its result and its final world *)
Lemma run_pair {A W : Type} (out : E A * W) (a : A) :
  fst out = inr a -> out = (inr a, snd out).
Proof. destruct out as [r w]. simpl. by intros ->. Qed.


Example upper_btcusdt : PyStr.upper "btcusdt" = "BTCUSDT"%string.
Proof. reflexivity. Qed.

Example capitalize_buy :
  PyStr.capitalize "buy" = "Buy"%string /\ PyStr.capitalize "SELL" = "Sell"%string.
Proof. split; reflexivity. Qed.

Example replace_bearer :
  PyStr.replace "Bearer abc" "Bearer " "" = "abc"%string
  /\ PyStr.replace "abc" "Bearer " "" = "abc"%string.
Proof. split; reflexivity. Qed.

Example query_string_b_a :
  _build_param_string [("b"%string, VInt 2); ("a"%string, VInt 1)] = "a=1&b=2"%string
  /\ _build_param_string [("a"%string, VInt 1); ("b"%string, VInt 2)] = "a=1&b=2"%string.
Proof. split; vm_compute; reflexivity. Qed.

(** the body of an enabling toggle, with [q] standing for the double
    quote: [{"category":"linear","symbol":"BTCUSDT","side":"Buy","autoAddMargin":"1"}] *)
Example margin_body_text :
  let q := String Py.dquote EmptyString in
  Py.dumps (margin_body (VStr "linear") (VStr "BTCUSDT") (VStr "Buy") true)
  = String.concat q
      [ "{"; "category"; ":"; "linear"; ","; "symbol"; ":"; "BTCUSDT"; ",";
        "side"; ":"; "Buy"; ","; "autoAddMargin"; ":"; "1"; "}" ]%string.
Proof. vm_compute. reflexivity. Qed.

Example toggle_is_disable :
  String.eqb (PyStr.lower "toggle") "enable" = false
  /\ String.eqb (PyStr.lower "ENABLE") "enable" = true.
Proof. split; reflexivity. Qed.

(** the scenario of the specification: the position is listed with the
    flag off, the alert enables it, the cache is dropped and the next read
    shows the flag on *)
Example end_to_end :
  fst (fetch_open_positions Demo.serve "key" "secret" "linear" "BTCUSDT" "USDT"
                            (Demo.start (Demo.Holding false)))
  = inr (Demo.listing false)
  /\ webhook Demo.serve Demo.describe Demo.open_mode Demo.alert Demo.polled
     = (inr Demo.ack, Demo.alerted)
  /\ fst (fetch_open_positions Demo.serve "key" "secret" "linear" "BTCUSDT" "USDT"
                               Demo.alerted)
     = inr (Demo.listing true).
Proof.
  split; [vm_compute; reflexivity|]. split; [|vm_compute; reflexivity].
  apply (run_pair (webhook Demo.serve Demo.describe Demo.open_mode Demo.alert Demo.polled)).
  vm_compute. reflexivity.
Qed.

(** the authentication scenario: secret "abc", header "Bearer wrong" *)
Example wrong_bearer_is_401 :
  post_webhook Demo.serve Demo.describe Demo.guarded
               (mkWebhookRequest (Some "Bearer wrong"%string) (Some Demo.enable_body))
               Demo.polled
  = ((401%Z, VDict [("detail"%string, VStr "Invalid webhook secret")]), Demo.polled).
Proof. apply (wrong_header_is_401 _ _ _ _ _ "abc"%string); [reflexivity|discriminate..]. Qed.

(** * Where the program departs from the specification *)

(** C2, as stated, fails: two queries with the same category and the same
    symbol, differing only in the settle coin that the symbol makes
    unused, send the same parameters to the exchange, yet the second get,
    at the very instant of the first, fetches again. *)
Lemma unused_settle_coin_splits_the_key :
  let get := fetch_open_positions Demo.serve "key" "secret" "linear" "BTCUSDT" in
  let w0 := Demo.start (Demo.Holding false) in
  let w1 := snd (get "USDT"%string w0) in
  let w2 := snd (get ""%string w1) in
  query_params "linear" "BTCUSDT" "USDT" = query_params "linear" "BTCUSDT" ""
  /\ now w1 = now w0
  /\ fst (get "USDT"%string w0) = inr (Demo.listing false)
  /\ List.length (sent w1) = 1%nat
  /\ List.length (sent w2) = 2%nat
  /\ get ""%string w1 <> (inr (Demo.listing false), w1).
Proof.
  cbv zeta. repeat split; try (vm_compute; reflexivity).
  intros H. apply (f_equal (fun out => List.length (sent (snd out)))) in H.
  vm_compute in H. discriminate H.
Qed.

(** C6.  The handler at the header "Bearer Bearer abc" with the secret
    "abc" configured: the bearer token of that header is "Bearer abc",
    which is not the secret, so the request is to be answered 401 with
    nothing sent; the handler, which takes the scheme off with
    [replace], takes it off twice, finds "abc", answers 200 and sends the
    margin request to the exchange. *)
Lemma doubled_scheme_is_accepted :
  let req := mkWebhookRequest (Some "Bearer Bearer abc"%string) (Some Demo.enable_body) in
  let out := post_webhook Demo.serve Demo.describe Demo.guarded req Demo.polled in
  Spec.bearer_token "Bearer Bearer abc" = Some "Bearer abc"%string
  /\ "Bearer abc"%string <> "abc"%string
  /\ fst out = (200%Z, Demo.ack)
  /\ sent (snd out)
     = sent Demo.polled
       ++ [margin_request "key" "secret" (VStr "linear") (VStr "BTCUSDT") (VStr "Buy")
                          true (now Demo.polled)].
Proof. cbv zeta. repeat split; try (vm_compute; reflexivity). discriminate. Qed.

(** C7, as stated, fails: the detail names the field inside single
    quotes, the way a [KeyError] prints; and a body whose symbol is not
    text is answered 500 before its missing side is looked for. *)
Lemma missing_field_detail_is_quoted :
  fst (post_webhook Demo.serve Demo.describe Demo.open_mode
         (mkWebhookRequest None (Some (VDict Demo.no_action_fields))) Demo.polled)
  = (400%Z, VDict [("detail"%string, VStr "Missing 'action'")])
  /\ "Missing 'action'"%string <> "Missing action"%string
  /\ Py.dict_get "side" Demo.number_symbol_fields = None
  /\ fst (post_webhook Demo.serve Demo.describe Demo.open_mode
            (mkWebhookRequest None (Some (VDict Demo.number_symbol_fields))) Demo.polled)
     = (500%Z, VStr "Internal Server Error").
Proof. repeat split; try (vm_compute; reflexivity). discriminate. Qed.

(** * The theorems at concrete inputs *)

Lemma linear_query_keys_distinct : List.NoDup (Py.keys Demo.linear_query).
Proof.
  apply List.NoDup_cons; [simpl; intros [H|[]]; discriminate H|].
  apply List.NoDup_cons; [simpl; tauto|apply List.NoDup_nil].
Defined.

Lemma generate_signature_hex_hmac_witness :
  String.length
    (generate_signature "secret" "1700000000000" "key" RECV_WINDOW Demo.linear_query "")
  = 64%nat.
Proof.
  apply (generate_signature_hex_hmac "secret" "1700000000000" "key" RECV_WINDOW
           Demo.linear_query "" linear_query_keys_distinct).
Defined.

Lemma query_order_is_irrelevant_witness :
  _build_param_string Demo.linear_query
  = _build_param_string [("symbol"%string, VStr "BTCUSDT"); ("category"%string, VStr "linear")].
Proof.
  apply (query_order_is_irrelevant Demo.linear_query
           [("symbol"%string, VStr "BTCUSDT"); ("category"%string, VStr "linear")]
           "secret" "1700000000000" "key" RECV_WINDOW "" linear_query_keys_distinct).
  apply perm_swap.
Defined.

Lemma cache_ttl_witness :
  let get := fetch_open_positions Demo.serve "key" "secret" "linear" "BTCUSDT" "USDT" in
  get (Demo.later 5 Demo.polled) = (inr (Demo.listing false), Demo.later 5 Demo.polled)
  /\ sent (snd (get (Demo.later 9 Demo.polled)))
     = sent Demo.polled
       ++ [positions_request "key" "secret" "linear" "BTCUSDT" "USDT"
                             (now (Demo.later 9 Demo.polled))].
Proof.
  cbv zeta. split.
  - apply (cache_ttl Demo.serve "key" "secret" "linear" "BTCUSDT" "USDT"
             (Demo.start (Demo.Holding false)) Demo.polled (Demo.later 5 Demo.polled)
             (Demo.listing false)).
    + apply (run_pair (fetch_open_positions Demo.serve "key" "secret" "linear" "BTCUSDT"
                         "USDT" (Demo.start (Demo.Holding false)))).
      vm_compute. reflexivity.
    + vm_compute. reflexivity.
    + reflexivity.
    + vm_compute. reflexivity.
  - apply (cache_ttl Demo.serve "key" "secret" "linear" "BTCUSDT" "USDT"
             (Demo.start (Demo.Holding false)) Demo.polled (Demo.later 9 Demo.polled)
             (Demo.listing false)).
    + apply (run_pair (fetch_open_positions Demo.serve "key" "secret" "linear" "BTCUSDT"
                         "USDT" (Demo.start (Demo.Holding false)))).
      vm_compute. reflexivity.
    + vm_compute. reflexivity.
    + reflexivity.
    + vm_compute. discriminate.
Defined.

Lemma toggle_invalidates_cache_witness :
  cache Demo.alerted = ∅
  /\ sent (snd (fetch_open_positions Demo.serve "key" "secret" "linear" "BTCUSDT" "USDT"
                                     Demo.alerted))
     = sent Demo.alerted
       ++ [positions_request "key" "secret" "linear" "BTCUSDT" "USDT" (now Demo.alerted)].
Proof.
  assert (Hrun : webhook Demo.serve Demo.describe Demo.open_mode Demo.alert Demo.polled
                 = (inr Demo.ack, Demo.alerted)).
  { apply (run_pair (webhook Demo.serve Demo.describe Demo.open_mode Demo.alert
                             Demo.polled)).
    vm_compute. reflexivity. }
  destruct (toggle_invalidates_cache Demo.serve Demo.describe Demo.open_mode
              Demo.polled Demo.alerted
              (or_introl (ex_intro _ Demo.alert (ex_intro _ Demo.ack Hrun))))
    as [Hempty Hnext].
  split; [exact Hempty|].
  apply Hnext. reflexivity.
Defined.

Lemma cache_key_is_argument_tuple_witness :
  fetch_open_positions Demo.serve "key" "secret" "linear" "BTCUSDT" "USDT"
                       (Demo.later 5 Demo.polled)
  = (inr (Demo.listing false), Demo.later 5 Demo.polled)
  /\ sent (snd (fetch_open_positions Demo.serve "key" "secret" "linear" "BTCUSDT" ""
                                     Demo.polled))
     = sent Demo.polled
       ++ [positions_request "key" "secret" "linear" "BTCUSDT" "" (now Demo.polled)].
Proof.
  assert (Hget : fetch_open_positions Demo.serve "key" "secret" "linear" "BTCUSDT" "USDT"
                   (Demo.start (Demo.Holding false))
                 = (inr (Demo.listing false), Demo.polled)).
  { apply (run_pair (fetch_open_positions Demo.serve "key" "secret" "linear" "BTCUSDT"
                       "USDT" (Demo.start (Demo.Holding false)))).
    vm_compute. reflexivity. }
  assert (Hsent : sent Demo.polled
                  = sent (Demo.start (Demo.Holding false))
                    ++ [positions_request "key" "secret" "linear" "BTCUSDT" "USDT"
                          (now (Demo.start (Demo.Holding false)))])
    by (vm_compute; reflexivity).
  split.
  - destruct (cache_key_is_argument_tuple Demo.serve
                "key" "secret" "linear" "BTCUSDT" "USDT"
                "key" "secret" "linear" "BTCUSDT" "USDT"
                _ _ _ Hget Hsent) as [Hsame _].
    apply (Hsame eq_refl (Demo.later 5 Demo.polled)).
    + reflexivity.
    + vm_compute. reflexivity.
  - destruct (cache_key_is_argument_tuple Demo.serve
                "key" "secret" "linear" "BTCUSDT" "USDT"
                "key" "secret" "linear" "BTCUSDT" ""
                _ _ _ Hget Hsent) as [_ Hother].
    destruct Hother as [_ Hfetch]; [discriminate|].
    apply (Hfetch Demo.polled); reflexivity.
Defined.

Lemma envelope_outcomes_witness :
  fst (fetch_open_positions Demo.serve "key" "secret" "linear" "BTCUSDT" "USDT"
                            (Demo.start Demo.Rejecting))
  = inl (RuntimeError "10001: params error")
  /\ fst (fetch_open_positions Demo.serve "key" "secret" "linear" "BTCUSDT" "USDT"
                               (Demo.start Demo.Flat))
     = inr [].
Proof.
  split.
  - refine (proj1 (envelope_outcomes Demo.serve "key" "secret" "linear" "BTCUSDT" "USDT"
                     (Demo.start Demo.Rejecting) Demo.Rejecting 200%Z
                     [("retCode"%string, VInt 10001); ("retMsg"%string, VStr "params error")]
                     _ eq_refl eq_refl)
                  (VInt 10001) (VStr "params error") eq_refl eq_refl eq_refl).
    intros stored df H. vm_compute in H. discriminate H.
  - refine (proj2 (envelope_outcomes Demo.serve "key" "secret" "linear" "BTCUSDT" "USDT"
                     (Demo.start Demo.Flat) Demo.Flat 200%Z
                     [("retCode"%string, VInt 0); ("retMsg"%string, VStr "OK");
                      ("result"%string, VDict [("list"%string, VList [])])]
                     _ eq_refl eq_refl)
                  [("list"%string, VList [])] eq_refl eq_refl eq_refl).
    intros stored df H. vm_compute in H. discriminate H.
Defined.

Lemma authentication_compares_stripped_header_witness :
  post_webhook Demo.serve Demo.describe Demo.guarded
               (mkWebhookRequest (Some "Bearer wrong"%string) (Some Demo.enable_body))
               Demo.polled
  = ((401%Z, VDict [("detail"%string, VStr "Invalid webhook secret")]), Demo.polled)
  /\ authenticate Demo.open_mode Demo.alert = inr tt.
Proof.
  split.
  - apply (proj1 (authentication_compares_stripped_header Demo.serve Demo.describe
                    Demo.guarded
                    (mkWebhookRequest (Some "Bearer wrong"%string) (Some Demo.enable_body))
                    Demo.polled) "abc"%string).
    + reflexivity.
    + discriminate.
    + vm_compute. discriminate.
  - apply (proj2 (authentication_compares_stripped_header Demo.serve Demo.describe
                    Demo.open_mode Demo.alert Demo.polled)).
    left. reflexivity.
Defined.

Lemma missing_field_is_400_witness :
  post_webhook Demo.serve Demo.describe Demo.open_mode
               (mkWebhookRequest None (Some (VDict Demo.no_action_fields))) Demo.polled
  = ((400%Z, VDict [("detail"%string, VStr "Missing 'action'")]), Demo.polled)
  /\ fst (fst (post_webhook Demo.serve Demo.describe Demo.open_mode Demo.alert Demo.polled))
     <> 400%Z.
Proof.
  split.
  - apply (proj1 (missing_field_is_400 Demo.serve Demo.describe Demo.open_mode
                    (mkWebhookRequest None (Some (VDict Demo.no_action_fields)))
                    Demo.polled Demo.no_action_fields eq_refl eq_refl) "action"%string).
    + simpl. tauto.
    + reflexivity.
    + simpl. repeat constructor; eexists; reflexivity.
  - apply (proj2 (missing_field_is_400 Demo.serve Demo.describe Demo.open_mode
                    Demo.alert Demo.polled Demo.enable_fields eq_refl eq_refl)
                 "btcusdt"%string "buy"%string "Enable"%string (VStr "linear")).
    + repeat split.
    + reflexivity.
Defined.

Lemma action_decides_enable_witness :
  sent (snd (webhook Demo.serve Demo.describe Demo.open_mode Demo.alert Demo.polled))
  = sent Demo.polled
    ++ [margin_request "key" "secret" (VStr "linear") (VStr "BTCUSDT") (VStr "Buy")
                       true (now Demo.polled)].
Proof.
  apply (action_decides_enable Demo.serve Demo.describe Demo.open_mode Demo.alert
           Demo.polled Demo.enable_fields "btcusdt" "buy" "Enable" (VStr "linear")
           eq_refl eq_refl).
  repeat split.
Defined.

Lemma symbol_and_side_normalised_witness :
  post_webhook Demo.serve Demo.describe Demo.open_mode Demo.alert Demo.polled
  = post_webhook Demo.serve Demo.describe Demo.open_mode Demo.alert_upper Demo.polled.
Proof.
  refine (proj2 (proj2 (proj2
    (symbol_and_side_normalised Demo.serve Demo.describe Demo.open_mode
       Demo.alert Demo.alert_upper Demo.polled
       Demo.enable_fields Demo.enable_fields_upper
       "btcusdt" "buy" "BTCUSDT" "Buy" "Enable" (VStr "linear")
       eq_refl eq_refl _ eq_refl eq_refl _ eq_refl eq_refl eq_refl eq_refl))) eq_refl eq_refl).
  - repeat split.
  - repeat split.
Defined.

(** * More of the program: transport, handlers, dashboard *)

Section Signed.

Lemma encode_app (a b : string) :
  PyStr.encode (a +:+ b) = PyStr.encode a ++ PyStr.encode b.
Proof.
  induction a as [|c a IH]; [reflexivity|].
  simpl. rewrite IH. by rewrite app_assoc.
Qed.

Lemma append_empty_r (s : string) : s +:+ "" = s.
Proof.
  induction s as [|c s IH]; [reflexivity|].
  change (String c s +:+ "") with (String c (s +:+ "")). by rewrite IH.
Qed.

Lemma positions_request_verifies (key secret category symbol settle_coin : string) (t : Q) :
  Wire.verifies key secret (positions_request key secret category symbol settle_coin t) = true.
Proof.
  unfold Wire.verifies, Wire.expected_sign, positions_request, bapi_headers.
  cbn [headers params data Wire.header String.eqb Ascii.eqb Bool.eqb].
  unfold generate_signature, signed_text.
  by rewrite app_nil_r, append_empty_r, !String.eqb_refl.
Qed.

Lemma margin_request_verifies (key secret : string) (category symbol side : pyval)
    (enable : bool) (t : Q) :
  Wire.verifies key secret (margin_request key secret category symbol side enable t) = true.
Proof.
  unfold Wire.verifies, Wire.expected_sign, margin_request, bapi_headers.
  cbn [headers params data Wire.header String.eqb Ascii.eqb Bool.eqb].
  unfold generate_signature, signed_text. cbn [_build_param_string].
  rewrite String.eqb_refl. cbn [andb].
  apply String.eqb_eq. f_equal.
  by rewrite !encode_app, !app_assoc.
Qed.

End Signed.



Section Calls.

Context {X : Type}.
Variable serve : X -> Q -> HttpRequest -> X * Transport.

Implicit Types (w : World X).

(** a get sends nothing or the one position request *)
Lemma fetch_sent_cases key secret category symbol settle_coin w :
  let w' := snd (fetch_open_positions serve key secret category symbol settle_coin w) in
  (w' = w \/ sent w' = sent w ++ [positions_request key secret category symbol settle_coin (now w)])
  /\ now w' = now w.
Proof.
  cbv zeta.
  destruct (cache w !! (key, secret, category, symbol, settle_coin)) as [[stored df]|] eqn:Hk.
  - destruct (Qlt_le_dec (now w) (stored + ttl)%Q) as [Hlt|Hle].
    + rewrite (fetch_hit serve _ _ _ _ _ _ _ _ Hk Hlt). cbn. auto.
    + destruct (fetch_miss serve key secret category symbol settle_coin w) as (Hs & Hn & _).
      { intros stored' df' Hk'. rewrite Hk in Hk'. by injection Hk' as <- <-. }
      auto.
  - destruct (fetch_miss serve key secret category symbol settle_coin w) as (Hs & Hn & _).
    { intros stored' df' Hk'. rewrite Hk in Hk'. discriminate. }
    auto.
Qed.

(** a get that raises found no usable entry *)
Lemma failed_get_was_miss key secret category symbol settle_coin w (e : exn) :
  fst (fetch_open_positions serve key secret category symbol settle_coin w) = inl e ->
  forall stored df,
    cache w !! (key, secret, category, symbol, settle_coin) = Some (stored, df) ->
    (stored + ttl <= now w)%Q.
Proof.
  intros Hfail stored df Hk.
  destruct (Qlt_le_dec (now w) (stored + ttl)%Q) as [Hlt|Hle]; [|exact Hle].
  rewrite (fetch_hit serve _ _ _ _ _ _ _ _ Hk Hlt) in Hfail. discriminate.
Qed.

Lemma failed_get_leaves_no_entry key secret category symbol settle_coin w (e : exn) :
  fst (fetch_open_positions serve key secret category symbol settle_coin w) = inl e ->
  cache (snd (fetch_open_positions serve key secret category symbol settle_coin w))
    !! (key, secret, category, symbol, settle_coin) = None.
Proof.
  intros Hfail. pose proof (failed_get_was_miss _ _ _ _ _ _ _ Hfail) as Hstale.
  revert Hfail. unfold fetch_open_positions. cbv zeta.
  destruct (cache w !! _) as [[stored df0]|] eqn:Hk.
  - destruct (Qlt_le_dec (now w) (stored + ttl)%Q) as [Hlt|_].
    { exfalso. apply (Qlt_not_le _ _ Hlt). by eapply Hstale. }
    pose proof (call_effect serve key secret category symbol settle_coin
      (mkWorld (now w) (exchange w) (sent w)
         (delete (key, secret, category, symbol, settle_coin) (cache w)))) as (_ & _ & Hc).
    cbn zeta in Hc. cbn [cache] in Hc.
    destruct (fetch_open_positions_call _ _ _ _ _ _ _) as [[e'|df] w'];
      cbn [fst snd] in Hc |- *; [|discriminate].
    intros _. rewrite Hc. apply lookup_delete_eq.
  - pose proof (call_effect serve key secret category symbol settle_coin w) as (_ & _ & Hc).
    cbn zeta in Hc.
    destruct (fetch_open_positions_call _ _ _ _ _ _ _) as [[e'|df] w'];
      cbn [fst snd] in Hc |- *; [|discriminate].
    intros _. by rewrite Hc.
Qed.

(** X5.  A get that raises stores nothing: the key has no entry afterwards,
    the entries of the other keys are as they were, and the next get for
    the key, whenever it comes, asks the exchange again. *)
Theorem failed_get_is_not_cached key secret category symbol settle_coin w (e : exn) :
  let k : CacheKey := (key, secret, category, symbol, settle_coin) in
  let out := fetch_open_positions serve key secret category symbol settle_coin w in
  fst out = inl e ->
  cache (snd out) !! k = None
  /\ (forall k', k' <> k -> cache (snd out) !! k' = cache w !! k')
  /\ forall w2, cache w2 !! k = cache (snd out) !! k ->
       sent (snd (fetch_open_positions serve key secret category symbol settle_coin w2))
       = sent w2 ++ [positions_request key secret category symbol settle_coin (now w2)].
Proof.
  intros k out Hfail. subst k out.
  pose proof (failed_get_leaves_no_entry _ _ _ _ _ _ _ Hfail) as Hnone.
  destruct (fetch_miss serve key secret category symbol settle_coin w
              (failed_get_was_miss _ _ _ _ _ _ _ Hfail)) as (_ & _ & Hother & _).
  split; [exact Hnone|]. split; [exact Hother|].
  intros w2 Hsame.
  apply (fetch_miss serve key secret category symbol settle_coin w2).
  intros stored df Hk. rewrite Hsame, Hnone in Hk. discriminate.
Qed.


(** X3.  A position read fails on the transport before it looks at the
    envelope: no reply raises [RequestException]; a 4xx or 5xx status
    raises [HTTPError] with that status whatever the body says, a
    well-formed success envelope included; a body that is not JSON raises
    [JSONDecodeError]. *)
Theorem transport_failures key secret category symbol settle_coin w x' :
  (forall stored df,
      cache w !! (key, secret, category, symbol, settle_coin) = Some (stored, df) ->
      (stored + ttl <= now w)%Q) ->
  let r := positions_request key secret category symbol settle_coin (now w) in
  let out := fst (fetch_open_positions serve key secret category symbol settle_coin w) in
  (serve (exchange w) (now w) r = (x', NoReply) -> out = inl RequestException)
  /\ (forall status body,
         serve (exchange w) (now w) r = (x', Reply status body) ->
         (400 <= status < 600)%Z -> out = inl (HTTPError status))
  /\ (forall status,
         serve (exchange w) (now w) r = (x', Reply status None) ->
         ~ (400 <= status < 600)%Z -> out = inl JSONDecodeError).
Proof.
  intros Hstale r out. subst r out.
  rewrite (fetch_miss_result serve _ _ _ _ _ _ Hstale).
  unfold fetch_open_positions_call, bind, clock, lift, request. cbn [fst snd].
  split; [|split].
  - intros ->. reflexivity.
  - intros status body -> Hrange. unfold read_json, raise_for_status. cbn [fst snd].
    replace ((400 <=? status)%Z && (status <? 600)%Z) with true
      by (symmetry; apply andb_true_intro; split; [apply Z.leb_le|apply Z.ltb_lt]; lia).
    reflexivity.
  - intros status -> Hrange. unfold read_json, raise_for_status. cbn [fst snd].
    replace ((400 <=? status)%Z && (status <? 600)%Z) with false; [reflexivity|].
    symmetry. apply andb_false_iff.
    destruct (Z.leb_spec 400 status); [right; apply Z.ltb_ge; lia|by left].
Qed.



(** X7.  The margin toggle has three outcomes once the exchange has
    answered with a status outside 4xx/5xx and a JSON object: the object
    itself, unchanged, when its [retCode] is absent or zero; a
    [RuntimeError] "<code>: <msg>" when it is not zero; and in both the
    one request is recorded and the cache is left as it was. *)
Theorem toggle_outcomes (key secret : string) (category symbol side : pyval)
    (enable : bool) w x' (status : Z) (d : Py.dict) :
  serve (exchange w) (now w)
        (margin_request key secret category symbol side enable (now w))
  = (x', Reply status (Some (VDict d))) ->
  ~ (400 <= status < 600)%Z ->
  let out := set_auto_add_margin serve key secret category symbol side enable w in
  snd out = mkWorld (now w) x'
              (sent w ++ [margin_request key secret category symbol side enable (now w)])
              (cache w)
  /\ (Py.ne_zero (default (VInt 0) (Py.dict_get "retCode" d)) = false ->
      fst out = inr (VDict d))
  /\ (forall code msg,
         Py.dict_get "retCode" d = Some code -> Py.ne_zero code = true ->
         Py.dict_get "retMsg" d = Some msg ->
         fst out = inl (RuntimeError (Py.str code +:+ ": " +:+ Py.str msg))).
Proof.
  intros Hreply Hrange out. subst out.
  unfold set_auto_add_margin, bind, clock, lift, ret, request. cbn [fst snd].
  rewrite Hreply. unfold read_json, raise_for_status. cbn [fst snd].
  replace ((400 <=? status)%Z && (status <? 600)%Z) with false.
  2:{ symmetry. apply andb_false_iff.
      destruct (Z.leb_spec 400 status); [right; apply Z.ltb_ge; lia|by left]. }
  cbn [E_bind]. unfold check_envelope, get_default, subscript.
  split; [|split].
  - destruct (Py.dict_get "retCode" d) as [c|]; cbn [E_bind].
    + destruct (Py.ne_zero c); cbn [E_bind snd]; [|reflexivity].
      by destruct (Py.dict_get "retMsg" d).
    + reflexivity.
  - intros Hzero.
    destruct (Py.dict_get "retCode" d) as [c|]; simpl in Hzero; cbn [E_bind];
      [rewrite Hzero|]; reflexivity.
  - intros code msg -> Hne ->. cbn [E_bind]. rewrite Hne. reflexivity.
Qed.

(** X2.  The position query is signed as it travels: with a symbol the
    parameters are the category and the symbol, without one the category
    and the settle coin, never both; and sorting the keys leaves them in
    the order the request carries them. *)
Theorem position_query_text (category symbol settle_coin : string) :
  let p := query_params category symbol settle_coin in
  (symbol <> ""%string ->
   Py.keys p = ["category"; "symbol"]%string
   /\ _build_param_string p = "category=" +:+ category +:+ "&symbol=" +:+ symbol)
  /\ (symbol = ""%string ->
      Py.keys p = ["category"; "settleCoin"]%string
      /\ _build_param_string p = "category=" +:+ category +:+ "&settleCoin=" +:+ settle_coin)
  /\ Py.sorted (Py.keys p) = Py.keys p.
Proof.
  unfold query_params. destruct symbol as [|c r]; cbn [PyStr.truthy].
  - split; [done|]. split; [|reflexivity]. intros _. split; reflexivity.
  - split; [|split; [done|reflexivity]]. intros _. split; reflexivity.
Qed.

Lemma filter_flat (d : Py.dict) :
  Wire.flat d = true ->
  List.filter (fun kv => negb (is_record (snd kv))) d = d
  /\ List.filter (fun kv => is_record (snd kv)) d = [].
Proof.
  induction d as [|[k v] d IH]; [done|].
  cbn [Wire.flat List.forallb snd List.filter]. intros H. apply andb_prop in H as [Hv Hd].
  destruct (IH Hd) as [-> ->]. by destruct v.
Qed.

Lemma flatten_flat (d : Py.dict) : Wire.flat d = true -> flatten (VDict d) = d.
Proof.
  intros Hf. unfold flatten. by destruct (filter_flat d Hf) as [-> ->].
Qed.

Lemma plain_is_flat (d : Py.dict) :
  List.forallb (fun kv => Wire.plain_cell (snd kv)) d = true -> Wire.flat d = true.
Proof.
  unfold Wire.flat. induction d as [|[k v] d IH]; [done|].
  cbn [List.forallb snd]. intros H. apply andb_prop in H as [Hv Hd].
  rewrite (IH Hd). by destruct v.
Qed.

(** the rows of a frame without gaps *)
Lemma tabular_rows (df : DataFrame) :
  Wire.tabular df = true -> Forall (fun row => Wire.flat row = true) df.
Proof.
  destruct df as [|first rest]; [constructor|].
  unfold Wire.tabular. generalize (first :: rest). intros l H.
  induction l as [|row l IH]; [constructor|].
  cbn [List.forallb] in H. apply andb_prop in H as [Hrow Hl].
  apply andb_prop in Hrow as [_ Hc].
  constructor; [by apply plain_is_flat|by apply IH].
Qed.

Lemma rows_of_flat (l : list Py.dict) :
  Forall (fun row => Wire.flat row = true) l -> rows_of (List.map VDict l) = inr l.
Proof.
  induction 1 as [|d l Hd _ IH]; [reflexivity|].
  cbn [List.map rows_of]. rewrite IH. cbn [E_bind]. by rewrite (flatten_flat d Hd).
Qed.

(** X6.  When the exchange lists, under a success envelope, records that
    all have the same columns in the same order, every cell text or an
    integer, the read returns a frame with exactly
    those records as its rows, as many and in the same order, and stores
    it under the key with the time of the read. *)
Theorem listing_is_the_exchange_list key secret category symbol settle_coin w x'
    (status : Z) (d r : Py.dict) (l : list Py.dict) :
  (forall stored df,
      cache w !! (key, secret, category, symbol, settle_coin) = Some (stored, df) ->
      (stored + ttl <= now w)%Q) ->
  serve (exchange w) (now w)
        (positions_request key secret category symbol settle_coin (now w))
  = (x', Reply status (Some (VDict d))) ->
  raise_for_status status = inr tt ->
  Py.ne_zero (default (VInt 0) (Py.dict_get "retCode" d)) = false ->
  Py.dict_get "result" d = Some (VDict r) ->
  Py.dict_get "list" r = Some (VList (List.map VDict l)) ->
  Wire.tabular l = true ->
  let out := fetch_open_positions serve key secret category symbol settle_coin w in
  fst out = inr l
  /\ cache (snd out) !! (key, secret, category, symbol, settle_coin) = Some (now w, l).
Proof.
  intros Hstale Hreply Hstatus Hzero Hres Hlist Hflat out. subst out.
  assert (Hout : fst (fetch_open_positions serve key secret category symbol settle_coin w)
                 = inr l).
  { rewrite (fetch_miss_result serve _ _ _ _ _ _ Hstale).
    rewrite (call_result serve _ _ _ _ _ _ _ _ _ Hreply Hstatus).
    unfold check_envelope, get_default, subscript, result_frame.
    destruct (Py.dict_get "retCode" d) as [c|]; simpl in Hzero; cbn [E_bind];
      [rewrite Hzero|]; cbn; rewrite Hres; cbn; rewrite Hlist;
      (destruct l as [|row l]; [reflexivity|]);
      cbn [List.map Py.truthy json_normalize];
      apply (rows_of_flat (row :: l) (tabular_rows _ Hflat)). }
  split; [exact Hout|].
  by apply (fetch_miss serve key secret category symbol settle_coin w Hstale).
Qed.

End Calls.

Lemma dict_get_set_eq (k : string) (v : pyval) (d : Py.dict) :
  Py.dict_get k (Py.dict_set k v d) = Some v.
Proof.
  induction d as [|[k' v'] d IH]; cbn.
  - by rewrite String.eqb_refl.
  - destruct (String.eqb_spec k k') as [->|Hne]; cbn.
    + by rewrite String.eqb_refl.
    + apply String.eqb_neq in Hne. by rewrite Hne.
Qed.

Lemma dict_get_set_ne (k k' : string) (v : pyval) (d : Py.dict) :
  k <> k' -> Py.dict_get k (Py.dict_set k' v d) = Py.dict_get k d.
Proof.
  intros Hne. induction d as [|[k0 v0] d IH]; cbn.
  - apply String.eqb_neq in Hne. by rewrite Hne.
  - destruct (String.eqb_spec k' k0) as [->|Hne0]; cbn.
    + apply String.eqb_neq in Hne. by rewrite Hne.
    + by rewrite IH.
Qed.

Section Handlers.

Context {X : Type}.
Variable serve : X -> Q -> HttpRequest -> X * Transport.
Variable describe : exn -> string.

Implicit Types (w : World X) (cfg : Config) (req : Request) (d : Py.dict).

(** the toggle, once the exchange has answered with JSON and a status
    that passes *)
Lemma set_margin_run (key secret : string) (category symbol side : pyval)
    (enable : bool) w x' (status : Z) (j : pyval) :
  serve (exchange w) (now w)
        (margin_request key secret category symbol side enable (now w))
  = (x', Reply status (Some j)) ->
  raise_for_status status = inr tt ->
  set_auto_add_margin serve key secret category symbol side enable w
  = ((do _ <- check_envelope j; inr j),
     mkWorld (now w) x'
       (sent w ++ [margin_request key secret category symbol side enable (now w)])
       (cache w)).
Proof.
  intros Hreply Hstatus.
  unfold set_auto_add_margin, bind, clock, lift, ret, request. cbn [fst snd].
  rewrite Hreply. unfold read_json. cbn [fst snd]. rewrite Hstatus. cbn [E_bind].
  by destruct (check_envelope j) as [e|[]].
Qed.

(** the authentication step raises nothing but the 401 *)
Lemma authenticate_error cfg req (e : exn) :
  authenticate cfg req = inl e -> e = HTTPException 401 "Invalid webhook secret".
Proof.
  unfold authenticate.
  destruct (WEBHOOK_SECRET cfg) as [secret|]; [|discriminate].
  destruct (PyStr.truthy secret); [|discriminate].
  destruct (String.eqb _ _); [discriminate|]. by intros [= <-].
Qed.

(** reading the fields raises a [KeyError], a [TypeError] or an
    [AttributeError] *)
Lemma read_fields_error (data : pyval) (e : exn) :
  read_fields data = inl e ->
  (exists k, e = KeyError k) \/ e = TypeError \/ e = AttributeError.
Proof.
  unfold read_fields, subscript, str_method, get_default.
  destruct data as [| | | | |d]; cbn [E_bind]; try (intros [= <-]; auto).
  destruct (Py.dict_get "symbol" d) as [[| | |s| |]|]; cbn [E_bind];
    try (intros [= <-]; eauto; fail).
  destruct (Py.dict_get "side" d) as [[| | |sd| |]|]; cbn [E_bind];
    try (intros [= <-]; eauto; fail).
  destruct (Py.dict_get "action" d) as [[| | |a| |]|]; cbn [E_bind];
    try (intros [= <-]; eauto; fail).
  destruct (Py.dict_get "category" d) as [c|]; cbn [E_bind];
    try (intros [= <-]; eauto; fail).
  destruct (Py.dict_get "settleCoin" d); cbn [E_bind]; discriminate.
Qed.

Lemma parse_error (data : pyval) (e : exn) :
  parse describe data = inl e ->
  (exists detail, e = HTTPException 400 detail) \/ e = TypeError \/ e = AttributeError.
Proof.
  unfold parse. destruct (read_fields data) as [e'|f] eqn:Hread; [|discriminate].
  destruct (read_fields_error data e' Hread) as [[k ->]|[->| ->]].
  - intros [= <-]. eauto.
  - intros [= <-]. auto.
  - intros [= <-]. auto.
Qed.

(** the handler, once the request is through authentication and
    validation, in terms of what the toggle did *)
Lemma webhook_after_toggle cfg req w d (s sd a : string) (c : pyval) :
  authenticate cfg req = inr tt ->
  body req = Some (VDict d) ->
  Spec.complete d s sd a c ->
  post_webhook serve describe cfg req w
  = match set_auto_add_margin serve (API_KEY cfg) (API_SECRET cfg) c
            (VStr (PyStr.upper s)) (VStr (PyStr.capitalize sd))
            (String.eqb (PyStr.lower a) "enable") w with
    | (inr res, w1) =>
        ((200%Z, VDict [("status", VStr "ok"); ("result", res)]),
         mkWorld (now w1) (exchange w1) (sent w1) ∅)
    | (inl e, w1) =>
        ((500%Z, VDict [("detail", VStr (str_exn describe e))]), w1)
    end.
Proof.
  intros Hauth Hbody Hd. unfold post_webhook.
  rewrite (webhook_complete serve describe _ _ _ _ _ _ _ _ Hauth Hbody Hd).
  unfold bind, catch, raise, ret, fetch_open_positions_clear.
  by destruct (set_auto_add_margin _ _ _ _ _ _ _ _) as [[e|res] w1].
Qed.


Lemma webhook_parsed cfg req w (data : pyval) (sym side act : string) (cat settle : pyval) :
  authenticate cfg req = inr tt ->
  body req = Some data ->
  parse describe data = inr (sym, side, act, cat, settle) ->
  post_webhook serve describe cfg req w
  = match set_auto_add_margin serve (API_KEY cfg) (API_SECRET cfg) cat
            (VStr sym) (VStr side) (String.eqb act "enable") w with
    | (inr res, w1) =>
        ((200%Z, VDict [("status", VStr "ok"); ("result", res)]),
         mkWorld (now w1) (exchange w1) (sent w1) ∅)
    | (inl e, w1) =>
        ((500%Z, VDict [("detail", VStr (str_exn describe e))]), w1)
    end.
Proof.
  intros Hauth Hbody Hparse. unfold post_webhook, webhook.
  unfold bind at 1, lift at 1. rewrite Hauth.
  unfold bind at 1, lift at 1. rewrite Hbody.
  unfold bind at 1, lift at 1. rewrite Hparse.
  unfold bind, catch, raise, ret, fetch_open_positions_clear.
  by destruct (set_auto_add_margin _ _ _ _ _ _ _ _) as [[e|res] w1].
Qed.

(** a request stopped before the toggle is answered with its error and
    leaves the world as it was *)
Lemma webhook_unauthenticated cfg req w (e : exn) :
  authenticate cfg req = inl e ->
  post_webhook serve describe cfg req w = (respond (inl e), w).
Proof.
  intros He. unfold post_webhook, webhook. unfold bind at 1, lift at 1. by rewrite He.
Qed.

Lemma webhook_no_json cfg req w :
  authenticate cfg req = inr tt ->
  body req = None ->
  post_webhook serve describe cfg req w = ((500%Z, VStr "Internal Server Error"), w).
Proof.
  intros Hauth Hb. unfold post_webhook, webhook.
  unfold bind at 1, lift at 1. rewrite Hauth.
  unfold bind at 1, lift at 1. by rewrite Hb.
Qed.

Lemma webhook_unparsed cfg req w (data : pyval) (e : exn) :
  authenticate cfg req = inr tt ->
  body req = Some data ->
  parse describe data = inl e ->
  post_webhook serve describe cfg req w = (respond (inl e), w).
Proof.
  intros Hauth Hb Hp. unfold post_webhook, webhook.
  unfold bind at 1, lift at 1. rewrite Hauth.
  unfold bind at 1, lift at 1. rewrite Hb.
  unfold bind at 1, lift at 1. by rewrite Hp.
Qed.

(** X10.  The handler answers 200, 400, 401 or 500 and nothing else; it
    sends at most one request, a POST to the margin endpoint; a 400 or a
    401 leaves the world untouched; a 200 means one request went out and
    the cache is empty; the clock is never moved. *)
Theorem webhook_status_and_traffic cfg req w :
  let out := post_webhook serve describe cfg req w in
  let status := fst (fst out) in
  (status = 200 \/ status = 400 \/ status = 401 \/ status = 500)%Z
  /\ now (snd out) = now w
  /\ (snd out = w
      \/ exists r, sent (snd out) = sent w ++ [r]
                   /\ method r = "POST"%string
                   /\ url r = (BASE_URL +:+ AUTO_MARGIN_PATH)%string)
  /\ ((status = 400 \/ status = 401)%Z -> snd out = w)
  /\ (status = 200%Z -> cache (snd out) = ∅ /\ exists r, sent (snd out) = sent w ++ [r]).
Proof.
  cbv zeta.
  destruct (authenticate cfg req) as [e|[]] eqn:Hauth.
  { rewrite (webhook_unauthenticated cfg req w e Hauth).
    apply authenticate_error in Hauth as ->. cbn.
    repeat split; auto; try (intros [|]; discriminate); intros; discriminate. }
  destruct (body req) as [data|] eqn:Hbody.
  2:{ rewrite (webhook_no_json cfg req w Hauth Hbody). cbn.
      repeat split; auto; try (intros [|]; discriminate); intros; discriminate. }
  destruct (parse describe data) as [e|[[[[sym side] act] cat] settle]] eqn:Hparse.
  { rewrite (webhook_unparsed cfg req w data e Hauth Hbody Hparse).
    destruct (parse_error data e Hparse) as [[detail ->]|[->| ->]]; cbn;
      repeat split; auto; try (intros [|]; discriminate); intros; discriminate. }
  rewrite (webhook_parsed cfg req w data sym side act cat settle Hauth Hbody Hparse).
  pose proof (set_margin_effect serve (API_KEY cfg) (API_SECRET cfg) cat (VStr sym)
                (VStr side) (String.eqb act "enable") w) as (Hs & Hn & Hc).
  cbn zeta in Hs, Hn, Hc.
  destruct (set_auto_add_margin _ _ _ _ _ _ _ _) as [[e|res] w1];
    cbn [fst snd now sent cache] in *.
  - repeat split; auto.
    + right. eexists. split; [exact Hs|]. split; reflexivity.
    + intros [|]; discriminate.
    + discriminate.
    + discriminate.
  - repeat split; auto.
    + right. eexists. split; [exact Hs|]. split; reflexivity.
    + intros [|]; discriminate.
    + eexists. exact Hs.
Qed.

(** X9.  When the toggle raises, the handler answers 500 with the text of
    the error as its detail, the request has gone out, and the cache is
    left as it was: nothing is cleared. *)
Theorem webhook_failure_keeps_cache cfg req w d (s sd a : string) (c : pyval)
    (e : exn) w1 :
  authenticate cfg req = inr tt ->
  body req = Some (VDict d) ->
  Spec.complete d s sd a c ->
  set_auto_add_margin serve (API_KEY cfg) (API_SECRET cfg) c
    (VStr (PyStr.upper s)) (VStr (PyStr.capitalize sd))
    (String.eqb (PyStr.lower a) "enable") w
  = (inl e, w1) ->
  post_webhook serve describe cfg req w
  = ((500%Z, VDict [("detail"%string, VStr (str_exn describe e))]), w1)
  /\ cache w1 = cache w
  /\ sent w1 = sent w ++ [margin_request (API_KEY cfg) (API_SECRET cfg) c
                            (VStr (PyStr.upper s)) (VStr (PyStr.capitalize sd))
                            (String.eqb (PyStr.lower a) "enable") (now w)].
Proof.
  intros Hauth Hbody Hd Hrun.
  rewrite (webhook_after_toggle cfg req w d s sd a c Hauth Hbody Hd), Hrun.
  pose proof (set_margin_effect serve (API_KEY cfg) (API_SECRET cfg) c
                (VStr (PyStr.upper s)) (VStr (PyStr.capitalize sd))
                (String.eqb (PyStr.lower a) "enable") w) as (Hs & _ & Hc).
  cbn zeta in Hs, Hc. rewrite Hrun in Hs, Hc. cbn [snd] in Hs, Hc. auto.
Qed.

(** X8.  When the exchange accepts the toggle, the handler answers 200
    with the exchange's own envelope, untouched, under "result"; the
    world then holds the request, the exchange's new state and an empty
    cache. *)
Theorem webhook_acknowledges cfg req w d (s sd a : string) (c : pyval)
    x' (status : Z) (j : Py.dict) :
  authenticate cfg req = inr tt ->
  body req = Some (VDict d) ->
  Spec.complete d s sd a c ->
  let r := margin_request (API_KEY cfg) (API_SECRET cfg) c
             (VStr (PyStr.upper s)) (VStr (PyStr.capitalize sd))
             (String.eqb (PyStr.lower a) "enable") (now w) in
  serve (exchange w) (now w) r = (x', Reply status (Some (VDict j))) ->
  raise_for_status status = inr tt ->
  Py.ne_zero (default (VInt 0) (Py.dict_get "retCode" j)) = false ->
  post_webhook serve describe cfg req w
  = ((200%Z, VDict [("status"%string, VStr "ok"); ("result"%string, VDict j)]),
     mkWorld (now w) x' (sent w ++ [r]) ∅).
Proof.
  intros Hauth Hbody Hd r Hreply Hstatus Hzero. subst r.
  rewrite (webhook_after_toggle cfg req w d s sd a c Hauth Hbody Hd).
  rewrite (set_margin_run _ _ _ _ _ _ _ _ _ _ Hreply Hstatus).
  unfold check_envelope, get_default.
  destruct (Py.dict_get "retCode" j) as [code|]; simpl in Hzero; cbn [E_bind];
    [rewrite Hzero|]; reflexivity.
Qed.

(** X11.  A body the handler cannot read as an object of text fields is
    answered 500 "Internal Server Error", not 400, and nothing is sent:
    a body that is not JSON, a JSON value that is not an object, and an
    object whose symbol is there but is not text. *)
Theorem malformed_body_is_500 cfg req w :
  authenticate cfg req = inr tt ->
  body req = None
  \/ (exists v, body req = Some v /\ match v with VDict _ => False | _ => True end)
  \/ (exists d x, body req = Some (VDict d)
                  /\ Py.dict_get "symbol" d = Some x
                  /\ match x with VStr _ => False | _ => True end) ->
  post_webhook serve describe cfg req w = ((500%Z, VStr "Internal Server Error"), w).
Proof.
  intros Hauth [Hb|[(v & Hb & Hv)|(d & x & Hb & Hsym & Hx)]].
  - by apply webhook_no_json.
  - assert (Hp : parse describe v = inl TypeError) by (by destruct v).
    by rewrite (webhook_unparsed cfg req w v TypeError Hauth Hb Hp).
  - assert (Hp : parse describe (VDict d) = inl AttributeError).
    { unfold parse, read_fields, subscript. rewrite Hsym. by destruct x. }
    by rewrite (webhook_unparsed cfg req w _ AttributeError Hauth Hb Hp).
Qed.

Lemma read_fields_settle_coin d (v : pyval) :
  read_fields (VDict (Py.dict_set "settleCoin" v d))
  = match read_fields (VDict d) with
    | inl e => inl e
    | inr (sym, side, act, cat, _) => inr (sym, side, act, cat, v)
    end.
Proof.
  unfold read_fields, subscript, get_default, str_method.
  rewrite !dict_get_set_ne by discriminate. rewrite dict_get_set_eq.
  destruct (Py.dict_get "symbol" d) as [[| | |s| |]|]; cbn [E_bind]; try reflexivity.
  destruct (Py.dict_get "side" d) as [[| | |sd| |]|]; cbn [E_bind]; try reflexivity.
  destruct (Py.dict_get "action" d) as [[| | |a| |]|]; cbn [E_bind]; try reflexivity.
  destruct (Py.dict_get "category" d) as [c|]; cbn [E_bind]; try reflexivity.
  by destruct (Py.dict_get "settleCoin" d).
Qed.

Lemma parse_settle_coin d (v : pyval) :
  parse describe (VDict (Py.dict_set "settleCoin" v d))
  = match parse describe (VDict d) with
    | inl e => inl e
    | inr (sym, side, act, cat, _) => inr (sym, side, act, cat, v)
    end.
Proof.
  unfold parse. rewrite read_fields_settle_coin.
  by destruct (read_fields (VDict d)) as [[]|[[[[sym side] act] cat] settle]].
Qed.

(** X12.  The handler reads [settleCoin] and never uses it: setting it in
    a body, to any value and whether it was there or not, changes
    neither the answer nor what is sent nor the resulting world. *)
Theorem settle_coin_is_ignored cfg (auth : option string) d (v : pyval) w :
  post_webhook serve describe cfg
    (mkWebhookRequest auth (Some (VDict (Py.dict_set "settleCoin" v d)))) w
  = post_webhook serve describe cfg (mkWebhookRequest auth (Some (VDict d))) w.
Proof.
  set (req1 := mkWebhookRequest auth (Some (VDict (Py.dict_set "settleCoin" v d)))).
  set (req2 := mkWebhookRequest auth (Some (VDict d))).
  assert (Hsame : authenticate cfg req1 = authenticate cfg req2) by reflexivity.
  destruct (authenticate cfg req2) as [e|[]] eqn:Hauth.
  { by rewrite (webhook_unauthenticated cfg req1 w e Hsame),
               (webhook_unauthenticated cfg req2 w e Hauth). }
  pose proof (parse_settle_coin d v) as Hparse.
  destruct (parse describe (VDict d)) as [e|[[[[sym side] act] cat] settle]] eqn:Hp.
  - by rewrite (webhook_unparsed cfg req1 w _ e Hsame eq_refl Hparse),
               (webhook_unparsed cfg req2 w _ e Hauth eq_refl Hp).
  - by rewrite (webhook_parsed cfg req1 w _ _ _ _ _ _ Hsame eq_refl Hparse),
               (webhook_parsed cfg req2 w _ _ _ _ _ _ Hauth eq_refl Hp).
Qed.

(** X14.  What the row button shows and what it sends, for a row of a
    frame whose records all have the same columns with text or integer
    cells, and whose symbol and side are text.  The click sends one
    margin request for that row; with the flag "1" the label is
    "Disable" and the request disables, with "0" (or no flag column) the
    label is "Enable" and the request enables, and with any other flag
    the label is "Enable" while the request disables. *)
Theorem button_label_and_command cfg (cat : string) (before after : DataFrame)
    (pos : Py.dict) (sym side : string) w :
  Wire.tabular (before ++ pos :: after) = true ->
  Py.dict_get "symbol" pos = Some (VStr sym) ->
  Py.dict_get "side" pos = Some (VStr side) ->
  let send (enable : bool) :=
    sent (snd (row_button serve cfg cat pos w))
    = sent w ++ [margin_request (API_KEY cfg) (API_SECRET cfg) (VStr cat)
                                (VStr sym) (VStr side) enable (now w)] in
  (current_flag pos = "1"%string -> button_label pos = "Disable"%string /\ send false)
  /\ (current_flag pos = "0"%string -> button_label pos = "Enable"%string /\ send true)
  /\ (Py.dict_get "autoAddMargin" pos = None -> current_flag pos = "0"%string)
  /\ (Py.dict_get "autoAddMargin" pos = Some (VInt 1) -> current_flag pos = "1"%string)
  /\ (current_flag pos <> "1"%string -> current_flag pos <> "0"%string ->
      button_label pos = "Enable"%string /\ send false).
Proof.
  intros _ Hsym Hside send.
  assert (Hsent : send (String.eqb (current_flag pos) "0")).
  { subst send. cbv beta. unfold row_button, catch, ret. fold (current_flag pos).
    unfold bind at 1, lift at 1. unfold subscript at 1. rewrite Hsym.
    unfold bind at 1, lift at 1. unfold subscript at 1. rewrite Hside.
    pose proof (set_margin_effect serve (API_KEY cfg) (API_SECRET cfg) (VStr cat)
                  (VStr sym) (VStr side)
                  (String.eqb (current_flag pos) "0") w) as (Hs & _).
    cbn zeta in Hs. unfold bind, fetch_open_positions_clear.
    by destruct (set_auto_add_margin _ _ _ _ _ _ _ _) as [[e|res] w1]. }
  unfold button_label. subst send. cbv beta in *.
  split; [|split; [|split; [|split]]].
  - intros H1. rewrite H1 in *. split; [reflexivity|exact Hsent].
  - intros H0. rewrite H0 in *. split; [reflexivity|exact Hsent].
  - unfold current_flag. by intros ->.
  - unfold current_flag. by intros ->.
  - intros H1 H0. apply String.eqb_neq in H1, H0. rewrite H1. rewrite H0 in Hsent. done.
Qed.

(** X15.  The button of a row of such a frame, with symbol and side text
    where it has them, never lets an exception out.  When it ends in an
    error the error is shown, no rerun is asked and the cache is left as
    it was; and where the frame has no symbol or no side column it stops
    with the [KeyError] before anything is sent. *)
Theorem row_button_failure_keeps_cache cfg (cat : string) (before after : DataFrame)
    (pos : Py.dict) w :
  Wire.tabular (before ++ pos :: after) = true ->
  Wire.text_or_absent "symbol" pos = true ->
  Wire.text_or_absent "side" pos = true ->
  (forall e w', row_button serve cfg cat pos w = (inr (ShowError e), w') ->
                cache w' = cache w)
  /\ (Py.dict_get "symbol" pos = None ->
      row_button serve cfg cat pos w = (inr (ShowError (KeyError "symbol")), w))
  /\ (forall sym, Py.dict_get "symbol" pos = Some sym -> Py.dict_get "side" pos = None ->
      row_button serve cfg cat pos w = (inr (ShowError (KeyError "side")), w))
  /\ exists o, fst (row_button serve cfg cat pos w) = inr o.
Proof.
  intros _ _ _.
  unfold row_button, catch, ret. unfold bind at 1 5 9 13, lift at 1 3 5 7.
  unfold subscript at 1 3 5 7.
  destruct (Py.dict_get "symbol" pos) as [sym|].
  2:{ repeat split; try done; eauto. by intros e w' [= _ <-]. }
  unfold bind at 1 4 7 10, lift, subscript.
  destruct (Py.dict_get "side" pos) as [side|].
  2:{ repeat split; try done; eauto. by intros e w' [= _ <-]. }
  pose proof (set_margin_effect serve (API_KEY cfg) (API_SECRET cfg) (VStr cat) sym side
                (String.eqb (Py.str (default (VStr "0") (Py.dict_get "autoAddMargin" pos)))
                            "0") w) as (_ & _ & Hc).
  cbn zeta in Hc. unfold bind, fetch_open_positions_clear.
  destruct (set_auto_add_margin _ _ _ _ _ _ _ _) as [[e|res] w1]; cbn [snd] in Hc.
  - repeat split; try done; eauto. by intros e' w' [= _ <-].
  - repeat split; try done; eauto.
Qed.

End Handlers.


(** X16.  [start_webhook] starts the listener once: however many times it
    is called, at least once, the flag ends up set and exactly one thread
    has been started if the flag was clear, none if it was set. *)
Theorem start_webhook_once (n : nat) (s : Listener) :
  (0 < n)%nat ->
  Nat.iter n start_webhook s
  = mkListener true (if _webhook_started s then threads s else S (threads s)).
Proof.
  intros Hn. destruct n as [|n]; [lia|]. clear Hn.
  induction n as [|n IH].
  - cbn. unfold start_webhook. by destruct s as [[] t].
  - change (Nat.iter (S (S n)) start_webhook s)
      with (start_webhook (Nat.iter (S n) start_webhook s)).
    by rewrite IH.
Qed.

Lemma replace_from_absent (old new s : string) :
  Wire.occurs old s = false -> PyStr.replace_from old new 0 s = s.
Proof.
  induction s as [|c r IH]; [reflexivity|].
  cbn [Wire.occurs PyStr.replace_from]. intros H. apply orb_false_elim in H as [Hp Hr].
  rewrite Hp. by rewrite IH.
Qed.

Lemma replace_bearer_prefix (s : string) :
  PyStr.replace ("Bearer " +:+ s) "Bearer " "" = PyStr.replace s "Bearer " "".
Proof. by destruct s. Qed.

(** X13.  With a secret configured that does not itself contain
    "Bearer ", the header "Bearer <secret>" passes the authentication
    step, and so does the bare secret sent as the header. *)
Theorem bearer_secret_is_accepted (cfg : Config) (req : Request) (secret : string) :
  WEBHOOK_SECRET cfg = Some secret ->
  Wire.occurs "Bearer " secret = false ->
  authorization req = Some ("Bearer " +:+ secret) \/ authorization req = Some secret ->
  authenticate cfg req = inr tt.
Proof.
  intros Hcfg Hfree Hauth. unfold authenticate. rewrite Hcfg.
  destruct (PyStr.truthy secret); [|reflexivity].
  assert (Hstrip : PyStr.replace (default "" (authorization req)) "Bearer " "" = secret).
  { destruct Hauth as [-> | ->]; cbn [default from_option id].
    - rewrite replace_bearer_prefix. by apply replace_from_absent.
    - by apply replace_from_absent. }
  by rewrite Hstrip, String.eqb_refl.
Qed.

(** upper-casing a text that is not empty leaves a text that is not empty *)
Lemma upper_keeps_text (s : string) :
  s <> ""%string -> PyStr.truthy (PyStr.upper s) = true.
Proof.
  destruct s as [|c r]; [done|]. intros _. cbn [PyStr.upper].
  by destruct (PyStr.is_sharp_s c).
Qed.

Section Script.

Context {X : Type}.
Variable serve : X -> Q -> HttpRequest -> X * Transport.
Variable describe : exn -> string.

Implicit Types (w : World X) (cfg : Config) (ui : Widgets).

(** rows at or after index [i] are only drawn when the pressed index is
    before [i], or when nothing is pressed *)
Lemma draw_rows_idle cfg (cat : string) (clicked : option nat) (rows : DataFrame) :
  forall (i : nat) drawn errors w,
    (forall n, clicked = Some n -> (n < i)%nat) ->
    draw_rows serve cfg cat clicked i rows drawn errors w
    = (inr (Table (drawn ++ labelled rows) errors), w).
Proof.
  induction rows as [|pos rows IH]; intros i drawn errors w Hpast.
  - cbn. by rewrite app_nil_r.
  - cbn [draw_rows].
    destruct (bool_decide (clicked = Some i)) eqn:Hc.
    { apply bool_decide_eq_true in Hc. specialize (Hpast i Hc). lia. }
    rewrite IH.
    + cbn [labelled List.map]. by rewrite <- app_assoc.
    + intros n Hn. specialize (Hpast n Hn). lia.
Qed.

(** the pressed row runs its handler, once, when the loop reaches it *)
Lemma draw_rows_pressed cfg (cat : string) (before after : DataFrame) (pos : Py.dict) :
  forall (i : nat) drawn errors w,
    draw_rows serve cfg cat (Some (i + List.length before)%nat) i
              (before ++ pos :: after) drawn errors w
    = match row_button serve cfg cat pos w with
      | (inr Rerun, w1) => (inr Restart, w1)
      | (inr (ShowError e), w1) =>
          (inr (Table (drawn ++ labelled (before ++ pos :: after)) (errors ++ [e])), w1)
      | (inl e, w1) => (inl e, w1)
      end.
Proof.
  induction before as [|row before IH]; intros i drawn errors w.
  - cbn [List.length app draw_rows]. rewrite Nat.add_0_r.
    rewrite bool_decide_eq_true_2 by reflexivity.
    unfold bind, ret.
    destruct (row_button serve cfg cat pos w) as [[e|[|e]] w1]; try reflexivity.
    rewrite draw_rows_idle by (intros n [= <-]; lia).
    cbn [labelled List.map]. by rewrite <- app_assoc.
  - cbn [List.length app draw_rows].
    rewrite bool_decide_eq_false_2 by (intros [=]; lia).
    replace (i + S (List.length before))%nat with (S i + List.length before)%nat by lia.
    rewrite IH.
    destruct (row_button serve cfg cat pos w) as [[e|[|e]] w1]; try reflexivity.
    cbn [labelled List.map]. by rewrite <- app_assoc.
Qed.

Lemma dashboard_view_reads cfg ui w :
  PyStr.truthy (PyStr.upper (strip (symbol_in ui)))
  || PyStr.truthy (PyStr.upper (strip (settle_in ui))) = true ->
  refresh_now ui = false ->
  dashboard_view serve cfg ui w
  = match fetch_open_positions serve (API_KEY cfg) (API_SECRET cfg) (category ui)
            (PyStr.upper (strip (symbol_in ui))) (PyStr.upper (strip (settle_in ui))) w with
    | (inl e, w1) => (inr (FetchError e), w1)
    | (inr df, w1) =>
        if df_empty df then (inr NoOpenPositions, w1)
        else draw_rows serve cfg (category ui) (pressed ui) 0 df [] [] w1
    end.
Proof.
  intros Hfilter Hrefresh. unfold dashboard_view. cbv zeta.
  replace (negb (PyStr.truthy (PyStr.upper (strip (symbol_in ui))))
           && negb (PyStr.truthy (PyStr.upper (strip (settle_in ui))))) with false
    by (symmetry; rewrite <- negb_orb, Hfilter; reflexivity).
  destruct (refresh_now ui); [discriminate|]. unfold bind, catch, ret.
  destruct (fetch_open_positions _ _ _ _ _ _ _) as [[e|df] w1]; [reflexivity|].
  by destruct (df_empty df).
Qed.

(** X17.  The guards of the script send nothing.  Without a key or a
    secret the run ends asking for them; the test is on the text as typed,
    so a key made of blanks passes and becomes the empty key.  With both
    filters blank once stripped the run ends asking for one.  With
    "Refresh Now" pressed the cache is emptied and the script restarts,
    before any read. *)
Theorem dashboard_guards (env : Config) ui w :
  (key_in ui = ""%string \/ secret_in ui = ""%string ->
   dashboard serve env ui w = (inr AskCredentials, w))
  /\ (key_in ui <> ""%string -> secret_in ui <> ""%string ->
      dashboard serve env ui w
      = dashboard_view serve
          (mkConfig (WEBHOOK_SECRET env) (strip (key_in ui)) (strip (secret_in ui))) ui w)
  /\ (forall cfg,
         strip (symbol_in ui) = ""%string -> strip (settle_in ui) = ""%string ->
         dashboard_view serve cfg ui w = (inr AskFilter, w))
  /\ (forall cfg,
         strip (symbol_in ui) <> ""%string \/ strip (settle_in ui) <> ""%string ->
         refresh_now ui = true ->
         dashboard_view serve cfg ui w
         = (inr Restart, mkWorld (now w) (exchange w) (sent w) ∅)).
Proof.
  unfold dashboard, credentials. split; [|split; [|split]].
  - intros [-> | ->]; cbn; [reflexivity|]. by rewrite orb_true_r.
  - intros Hk Hs. by destruct (key_in ui), (secret_in ui).
  - intros cfg Hsym Hsettle. unfold dashboard_view. by rewrite Hsym, Hsettle.
  - intros cfg Hfilter Hrefresh. unfold dashboard_view. cbv zeta. rewrite Hrefresh.
    pose proof upper_keeps_text as Hup.
    destruct Hfilter as [H|H]; rewrite (Hup _ H); cbn [negb andb];
      rewrite ?andb_false_r; reflexivity.
Qed.

(** X18.  A run with nothing pressed is one cached read and nothing else,
    for filters whose capitals stay below code point 256 and a read that
    fails or returns a frame whose records all have the same columns with
    text or integer cells: its world is the world the read leaves, so it
    sends at most the one position request, with the filters stripped
    and uppercased; it shows the read's error, or that there is no
    position, or every row with its label and no error. *)
Theorem dashboard_idle_run cfg ui w :
  strip (symbol_in ui) <> ""%string \/ strip (settle_in ui) <> ""%string ->
  PyStr.cased_within (strip (symbol_in ui)) = true ->
  PyStr.cased_within (strip (settle_in ui)) = true ->
  refresh_now ui = false ->
  pressed ui = None ->
  let symbol := PyStr.upper (strip (symbol_in ui)) in
  let settle_coin := PyStr.upper (strip (settle_in ui)) in
  let read := fetch_open_positions serve (API_KEY cfg) (API_SECRET cfg) (category ui)
                                   symbol settle_coin w in
  match fst read with inr df => Wire.tabular df | inl _ => true end = true ->
  dashboard_view serve cfg ui w
  = (inr match fst read with
         | inl e => FetchError e
         | inr df => if df_empty df then NoOpenPositions else Table (labelled df) []
         end,
     snd read)
  /\ (snd read = w
      \/ sent (snd read)
         = sent w ++ [positions_request (API_KEY cfg) (API_SECRET cfg) (category ui)
                                        symbol settle_coin (now w)]).
Proof.
  intros Hfilter _ _ Hrefresh Hpressed symbol settle_coin read _.
  subst symbol settle_coin read.
  pose proof upper_keeps_text as Hup.
  split.
  - rewrite dashboard_view_reads; [|by destruct Hfilter as [H|H]; rewrite (Hup _ H);
                                      rewrite ?orb_true_r|exact Hrefresh].
    destruct (fetch_open_positions _ _ _ _ _ _ _) as [[e|df] w1]; [reflexivity|].
    cbn [fst snd]. destruct (df_empty df); [reflexivity|].
    rewrite Hpressed. by rewrite draw_rows_idle.
  - apply fetch_sent_cases.
Qed.

(** X19.  Pressing the button of row [i] runs that row's handler once,
    after the read and on the row the read returned at that index, and no
    other row's: a successful toggle restarts the script, a failed one is
    shown beside the full table.  This is for filters whose capitals stay
    below code point 256, a frame whose records all have the same columns
    with text or integer cells, and a row whose symbol and side are text
    where it has them. *)
Theorem dashboard_pressed_row cfg ui w (df before after : DataFrame) (pos : Py.dict) w1 :
  strip (symbol_in ui) <> ""%string \/ strip (settle_in ui) <> ""%string ->
  PyStr.cased_within (strip (symbol_in ui)) = true ->
  PyStr.cased_within (strip (settle_in ui)) = true ->
  refresh_now ui = false ->
  fetch_open_positions serve (API_KEY cfg) (API_SECRET cfg) (category ui)
    (PyStr.upper (strip (symbol_in ui))) (PyStr.upper (strip (settle_in ui))) w
  = (inr df, w1) ->
  Wire.tabular df = true ->
  df_empty df = false ->
  df = before ++ pos :: after ->
  Wire.text_or_absent "symbol" pos = true ->
  Wire.text_or_absent "side" pos = true ->
  pressed ui = Some (List.length before) ->
  dashboard_view serve cfg ui w
  = match row_button serve cfg (category ui) pos w1 with
    | (inr Rerun, w2) => (inr Restart, w2)
    | (inr (ShowError e), w2) => (inr (Table (labelled df) [e]), w2)
    | (inl e, w2) => (inl e, w2)
    end.
Proof.
  intros Hfilter _ _ Hrefresh Hread _ Hrows -> _ _ Hpressed.
  pose proof upper_keeps_text as Hup.
  rewrite dashboard_view_reads; [|by destruct Hfilter as [H|H]; rewrite (Hup _ H);
                                    rewrite ?orb_true_r|exact Hrefresh].
  rewrite Hread, Hrows, Hpressed.
  apply (draw_rows_pressed cfg (category ui) before after pos 0 [] [] w1).
Qed.

End Script.

Section Traffic.

Context {X : Type}.
Variable serve : X -> Q -> HttpRequest -> X * Transport.
Variable describe : exn -> string.

Implicit Types (w : World X) (cfg : Config) (ui : Widgets).

Lemma fetch_signed (key secret category symbol settle_coin : string) w :
  Wire.all_signed key secret (sent w) ->
  Wire.all_signed key secret
    (sent (snd (fetch_open_positions serve key secret category symbol settle_coin w))).
Proof.
  intros Hw. unfold Wire.all_signed in *.
  destruct (fetch_sent_cases serve key secret category symbol settle_coin w) as [[-> | ->] _];
    [exact Hw|].
  apply Forall_app. split; [exact Hw|].
  constructor; [apply positions_request_verifies|constructor].
Qed.

Lemma row_button_signed cfg (cat : string) (pos : Py.dict) w :
  Wire.all_signed (API_KEY cfg) (API_SECRET cfg) (sent w) ->
  Wire.all_signed (API_KEY cfg) (API_SECRET cfg) (sent (snd (row_button serve cfg cat pos w))).
Proof.
  intros Hw. unfold row_button, catch, ret.
  unfold bind at 1, lift at 1.
  destruct (subscript (VDict pos) "symbol") as [e|sym]; [exact Hw|].
  unfold bind at 1, lift at 1.
  destruct (subscript (VDict pos) "side") as [e|side]; [exact Hw|].
  pose proof (set_margin_effect serve (API_KEY cfg) (API_SECRET cfg) (VStr cat) sym side
                (String.eqb (Py.str (default (VStr "0") (Py.dict_get "autoAddMargin" pos)))
                            "0") w) as (Hs & _).
  cbn zeta in Hs. unfold bind, fetch_open_positions_clear.
  destruct (set_auto_add_margin _ _ _ _ _ _ _ _) as [[e|res] w1]; cbn [snd sent] in *;
    rewrite Hs; (apply Forall_app; split; [exact Hw|]);
    (constructor; [apply margin_request_verifies|constructor]).
Qed.

Lemma webhook_signed cfg (req : Request) w :
  Wire.all_signed (API_KEY cfg) (API_SECRET cfg) (sent w) ->
  Wire.all_signed (API_KEY cfg) (API_SECRET cfg) (sent (snd (post_webhook serve describe cfg req w))).
Proof.
  intros Hw.
  destruct (authenticate cfg req) as [e|[]] eqn:Hauth.
  { by rewrite (webhook_unauthenticated serve describe cfg req w e Hauth). }
  destruct (body req) as [data|] eqn:Hbody.
  2:{ by rewrite (webhook_no_json serve describe cfg req w Hauth Hbody). }
  destruct (parse describe data) as [e|[[[[sym side] act] cat] settle]] eqn:Hparse.
  { by rewrite (webhook_unparsed serve describe cfg req w data e Hauth Hbody Hparse). }
  rewrite (webhook_parsed serve describe cfg req w data sym side act cat settle
             Hauth Hbody Hparse).
  pose proof (set_margin_effect serve (API_KEY cfg) (API_SECRET cfg) cat (VStr sym)
                (VStr side) (String.eqb act "enable") w) as (Hs & _).
  cbn zeta in Hs.
  destruct (set_auto_add_margin _ _ _ _ _ _ _ _) as [[e|res] w1]; cbn [snd sent] in *;
    rewrite Hs; (apply Forall_app; split; [exact Hw|]);
    (constructor; [apply margin_request_verifies|constructor]).
Qed.

Lemma draw_rows_signed cfg (cat : string) (clicked : option nat) (rows : DataFrame) :
  forall (i : nat) drawn errors w,
    Wire.all_signed (API_KEY cfg) (API_SECRET cfg) (sent w) ->
    Wire.all_signed (API_KEY cfg) (API_SECRET cfg)
      (sent (snd (draw_rows serve cfg cat clicked i rows drawn errors w))).
Proof.
  induction rows as [|pos rows IH]; intros i drawn errors w Hw; [exact Hw|].
  cbn [draw_rows]. destruct (bool_decide (clicked = Some i)); [|by apply IH].
  pose proof (row_button_signed cfg cat pos w Hw) as Hb.
  unfold bind, ret.
  destruct (row_button serve cfg cat pos w) as [[e|[|e]] w1]; cbn [snd] in *; try exact Hb.
  by apply IH.
Qed.

(** X1.  Nothing leaves unsigned.  If every request recorded so far
    verifies under the configured key and secret (the key it announces is
    the configured one and its signature is the HMAC of its own
    timestamp, key, window, query parameters and body bytes), then so
    does every request recorded after a webhook call, a row button, or a
    run of the dashboard view. *)
Theorem every_request_is_signed cfg w :
  Wire.all_signed (API_KEY cfg) (API_SECRET cfg) (sent w) ->
  (forall req,
      Wire.all_signed (API_KEY cfg) (API_SECRET cfg)
                 (sent (snd (post_webhook serve describe cfg req w))))
  /\ (forall cat pos,
         Wire.all_signed (API_KEY cfg) (API_SECRET cfg)
                    (sent (snd (row_button serve cfg cat pos w))))
  /\ (forall ui,
         Wire.all_signed (API_KEY cfg) (API_SECRET cfg)
                    (sent (snd (dashboard_view serve cfg ui w)))).
Proof.
  intros Hw. split; [|split].
  - intros req. by apply webhook_signed.
  - intros cat pos. by apply row_button_signed.
  - intros ui. unfold dashboard_view. cbv zeta.
    destruct (negb _ && negb _); [exact Hw|].
    destruct (refresh_now ui); [exact Hw|].
    pose proof (fetch_signed (API_KEY cfg) (API_SECRET cfg) (category ui)
                  (PyStr.upper (strip (symbol_in ui))) (PyStr.upper (strip (settle_in ui)))
                  w Hw) as Hf.
    unfold bind, catch, ret.
    destruct (fetch_open_positions _ _ _ _ _ _ _) as [[e|df] w1]; cbn [snd] in *;
      [exact Hf|].
    destruct (df_empty df); [exact Hf|]. by apply draw_rows_signed.
Qed.

End Traffic.

(** * The further theorems at concrete inputs *)

Lemma every_request_is_signed_witness :
  Wire.all_signed "key" "secret"
    (sent (snd (post_webhook Demo.serve Demo.describe Demo.open_mode Demo.alert
                             (Demo.start (Demo.Holding false)))))
  /\ Wire.all_signed "key" "secret"
       (sent (snd (dashboard_view Demo.serve Demo.open_mode Bench.press
                                  (Demo.start (Demo.Holding false))))).
Proof.
  destruct (every_request_is_signed Demo.serve Demo.describe Demo.open_mode
              (Demo.start (Demo.Holding false)) (Forall_nil_2 _)) as (Hhook & _ & Hview).
  split; [apply Hhook|apply Hview].
Defined.

Lemma position_query_text_witness :
  _build_param_string (query_params "linear" "BTCUSDT" "USDT")
  = "category=linear&symbol=BTCUSDT"%string
  /\ _build_param_string (query_params "linear" "" "USDT")
     = "category=linear&settleCoin=USDT"%string.
Proof.
  split.
  - apply (proj1 (position_query_text "linear" "BTCUSDT" "USDT")). discriminate.
  - apply (proj1 (proj2 (position_query_text "linear" "" "USDT"))). reflexivity.
Defined.

Lemma empty_cache_is_stale {X : Type} (w : World X) (k : CacheKey) :
  cache w = ∅ ->
  forall stored df, cache w !! k = Some (stored, df) -> (stored + ttl <= now w)%Q.
Proof. intros Hc stored df. rewrite Hc, lookup_empty. discriminate. Defined.

Lemma transport_failures_witness :
  fst (fetch_open_positions Bench.failing "key" "secret" "linear" "BTCUSDT" "USDT"
                            (Bench.start Bench.Down))
  = inl RequestException
  /\ fst (fetch_open_positions Bench.failing "key" "secret" "linear" "BTCUSDT" "USDT"
                               (Bench.start Bench.Busy))
     = inl (HTTPError 503)
  /\ fst (fetch_open_positions Bench.failing "key" "secret" "linear" "BTCUSDT" "USDT"
                               (Bench.start Bench.Garbled))
     = inl JSONDecodeError.
Proof.
  split; [|split].
  - apply (proj1 (transport_failures Bench.failing "key" "secret" "linear" "BTCUSDT" "USDT"
                    (Bench.start Bench.Down) Bench.Down
                    (empty_cache_is_stale (Bench.start Bench.Down) _ eq_refl))).
    reflexivity.
  - apply (proj1 (proj2 (transport_failures Bench.failing "key" "secret" "linear" "BTCUSDT"
                           "USDT" (Bench.start Bench.Busy) Bench.Busy
                           (empty_cache_is_stale (Bench.start Bench.Busy) _ eq_refl)))
                 503%Z (Some (Demo.envelope []))).
    + reflexivity.
    + lia.
  - apply (proj2 (proj2 (transport_failures Bench.failing "key" "secret" "linear" "BTCUSDT"
                           "USDT" (Bench.start Bench.Garbled) Bench.Garbled
                           (empty_cache_is_stale (Bench.start Bench.Garbled) _ eq_refl)))
                 200%Z).
    + reflexivity.
    + lia.
Defined.


Lemma failed_get_is_not_cached_witness :
  cache (snd (fetch_open_positions Demo.serve "key" "secret" "linear" "BTCUSDT" "USDT"
                                   (Demo.start Demo.Rejecting)))
    !! ("key", "secret", "linear", "BTCUSDT", "USDT")%string
  = None.
Proof.
  refine (proj1 (failed_get_is_not_cached Demo.serve "key" "secret" "linear" "BTCUSDT"
                   "USDT" (Demo.start Demo.Rejecting)
                   (RuntimeError "10001: params error") _)).
  vm_compute. reflexivity.
Defined.

Lemma listing_is_the_exchange_list_witness :
  fst (fetch_open_positions Demo.serve "key" "secret" "linear" "BTCUSDT" "USDT"
                            (Demo.start (Demo.Holding false)))
  = inr (Demo.listing false).
Proof.
  apply (listing_is_the_exchange_list Demo.serve "key" "secret" "linear" "BTCUSDT" "USDT"
           (Demo.start (Demo.Holding false)) (Demo.Holding false) 200%Z
           [("retCode"%string, VInt 0); ("retMsg"%string, VStr "OK");
            ("result"%string, VDict [("list"%string, VList [Demo.position false])])]
           [("list"%string, VList [Demo.position false])]
           (Demo.listing false)
           (empty_cache_is_stale (Demo.start (Demo.Holding false)) _ eq_refl)
           eq_refl eq_refl eq_refl eq_refl eq_refl).
  repeat constructor.
Defined.

Lemma toggle_outcomes_witness :
  fst (set_auto_add_margin Demo.serve "key" "secret" (VStr "linear") (VStr "BTCUSDT")
                           (VStr "Buy") true (Demo.start Demo.Rejecting))
  = inl (RuntimeError "10001: params error").
Proof.
  refine (proj2 (proj2 (toggle_outcomes Demo.serve "key" "secret" (VStr "linear")
                          (VStr "BTCUSDT") (VStr "Buy") true (Demo.start Demo.Rejecting)
                          Demo.Rejecting 200%Z
                          [("retCode"%string, VInt 10001);
                           ("retMsg"%string, VStr "params error")]
                          eq_refl _))
                (VInt 10001) (VStr "params error") eq_refl eq_refl eq_refl).
  lia.
Defined.

Lemma webhook_acknowledges_witness :
  post_webhook Demo.serve Demo.describe Demo.open_mode Demo.alert
               (Demo.start (Demo.Holding false))
  = ((200%Z, Demo.ack),
     mkWorld (now (Demo.start (Demo.Holding false))) (Demo.Holding true)
       (sent (Demo.start (Demo.Holding false))
        ++ [margin_request "key" "secret" (VStr "linear") (VStr "BTCUSDT") (VStr "Buy")
                           true (now (Demo.start (Demo.Holding false)))])
       ∅).
Proof.
  apply (webhook_acknowledges Demo.serve Demo.describe Demo.open_mode Demo.alert
           (Demo.start (Demo.Holding false)) Demo.enable_fields
           "btcusdt" "buy" "Enable" (VStr "linear") (Demo.Holding true) 200%Z
           [("retCode"%string, VInt 0); ("retMsg"%string, VStr "OK");
            ("result"%string, VDict [("list"%string, VList [])])]
           eq_refl eq_refl).
  - repeat split.
  - vm_compute. reflexivity.
  - reflexivity.
  - reflexivity.
Defined.

Lemma webhook_failure_keeps_cache_witness :
  fst (post_webhook Demo.serve Demo.describe Demo.open_mode Demo.alert
                    Bench.rejecting_after_poll)
  = (500%Z, VDict [("detail"%string, VStr "10001: params error")])
  /\ cache (snd (set_auto_add_margin Demo.serve "key" "secret" (VStr "linear")
                   (VStr "BTCUSDT") (VStr "Buy") true Bench.rejecting_after_poll))
     = cache Bench.rejecting_after_poll.
Proof.
  assert (Hrun : set_auto_add_margin Demo.serve "key" "secret" (VStr "linear")
                   (VStr "BTCUSDT") (VStr "Buy") true Bench.rejecting_after_poll
                 = (inl (RuntimeError "10001: params error"),
                    snd (set_auto_add_margin Demo.serve "key" "secret" (VStr "linear")
                           (VStr "BTCUSDT") (VStr "Buy") true Bench.rejecting_after_poll))).
  { set (out := set_auto_add_margin _ _ _ _ _ _ _ _).
    assert (Hfst : fst out = inl (RuntimeError "10001: params error"))
      by (vm_compute; reflexivity).
    destruct out as [r w1]. cbn in Hfst |- *. by rewrite Hfst. }
  destruct (webhook_failure_keeps_cache Demo.serve Demo.describe Demo.open_mode Demo.alert
              Bench.rejecting_after_poll Demo.enable_fields
              "btcusdt" "buy" "Enable" (VStr "linear") _ _ eq_refl eq_refl
              (conj eq_refl (conj eq_refl (conj eq_refl eq_refl))) Hrun)
    as (Hanswer & Hcache & _).
  split; [by rewrite Hanswer|exact Hcache].
Defined.

Lemma malformed_body_is_500_witness :
  post_webhook Demo.serve Demo.describe Demo.open_mode
               (mkWebhookRequest None (Some (VList []))) Demo.polled
  = ((500%Z, VStr "Internal Server Error"), Demo.polled).
Proof.
  apply (malformed_body_is_500 Demo.serve Demo.describe Demo.open_mode
           (mkWebhookRequest None (Some (VList []))) Demo.polled eq_refl).
  right. left. exists (VList []). split; [reflexivity|exact I].
Defined.

Lemma bearer_secret_is_accepted_witness :
  authenticate Demo.guarded (mkWebhookRequest (Some "Bearer abc"%string) None) = inr tt.
Proof.
  apply (bearer_secret_is_accepted Demo.guarded
           (mkWebhookRequest (Some "Bearer abc"%string) None) "abc" eq_refl eq_refl).
  left. reflexivity.
Defined.

Lemma button_label_and_command_witness :
  button_label Bench.blank_flag_row = "Enable"%string
  /\ sent (snd (row_button Demo.serve Demo.open_mode "linear" Bench.blank_flag_row
                           Demo.polled))
     = sent Demo.polled
       ++ [margin_request "key" "secret" (VStr "linear") (VStr "ETHUSDT") (VStr "Sell")
                          false (now Demo.polled)].
Proof.
  apply (proj2 (proj2 (proj2 (proj2
           (button_label_and_command Demo.serve Demo.open_mode "linear"
              [] [] Bench.blank_flag_row "ETHUSDT" "Sell" Demo.polled
              eq_refl eq_refl eq_refl))))); discriminate.
Defined.

Lemma row_button_failure_keeps_cache_witness :
  row_button Demo.serve Demo.open_mode "linear" [("side"%string, VStr "Sell")] Demo.polled
  = (inr (ShowError (KeyError "symbol")), Demo.polled).
Proof.
  exact (proj1 (proj2
           (row_button_failure_keeps_cache Demo.serve Demo.open_mode "linear"
              [] [] [("side"%string, VStr "Sell")] Demo.polled
              eq_refl eq_refl eq_refl)) eq_refl).
Defined.

Lemma start_webhook_once_witness :
  Nat.iter 3 start_webhook (mkListener false 0) = mkListener true 1.
Proof. apply (start_webhook_once 3 (mkListener false 0)). lia. Defined.

Lemma idle_filters_kept :
  strip (symbol_in Bench.idle) <> ""%string \/ strip (settle_in Bench.idle) <> ""%string.
Proof. left. discriminate. Defined.

Lemma idle_read_is_tabular :
  match fst (fetch_open_positions Demo.serve "key" "secret" "linear"
               (PyStr.upper (strip " btcusdt ")) (PyStr.upper (strip "USDT"))
               (Demo.start (Demo.Holding false))) with
  | inr df => Wire.tabular df
  | inl _ => true
  end = true.
Proof. vm_compute. reflexivity. Defined.

Lemma dashboard_idle_run_witness :
  let read := fetch_open_positions Demo.serve "key" "secret" "linear"
                (PyStr.upper (strip " btcusdt ")) (PyStr.upper (strip "USDT"))
                (Demo.start (Demo.Holding false)) in
  dashboard_view Demo.serve Demo.open_mode Bench.idle (Demo.start (Demo.Holding false))
  = (inr match fst read with
         | inl e => FetchError e
         | inr df => if df_empty df then NoOpenPositions else Table (labelled df) []
         end,
     snd read).
Proof.
  exact (proj1 (dashboard_idle_run Demo.serve Demo.open_mode Bench.idle
                  (Demo.start (Demo.Holding false)) idle_filters_kept
                  eq_refl eq_refl eq_refl eq_refl idle_read_is_tabular)).
Defined.

Lemma dashboard_pressed_row_witness :
  dashboard_view Demo.serve Demo.open_mode Bench.press (Demo.start (Demo.Holding false))
  = match row_button Demo.serve Demo.open_mode "linear"
            [ ("symbol"%string, VStr "BTCUSDT"); ("side"%string, VStr "Buy");
              ("size"%string, VStr "0.01"); ("autoAddMargin"%string, VInt 0) ]
            Demo.polled with
    | (inr Rerun, w2) => (inr Restart, w2)
    | (inr (ShowError e), w2) => (inr (Table (labelled (Demo.listing false)) [e]), w2)
    | (inl e, w2) => (inl e, w2)
    end.
Proof.
  apply (dashboard_pressed_row Demo.serve Demo.open_mode Bench.press
           (Demo.start (Demo.Holding false)) (Demo.listing false) [] []
           [ ("symbol"%string, VStr "BTCUSDT"); ("side"%string, VStr "Buy");
             ("size"%string, VStr "0.01"); ("autoAddMargin"%string, VInt 0) ]
           Demo.polled).
  - exact idle_filters_kept.
  - reflexivity.
  - reflexivity.
  - reflexivity.
  - apply (run_pair (fetch_open_positions Demo.serve "key" "secret" "linear"
                       (PyStr.upper (strip " btcusdt ")) (PyStr.upper (strip "USDT"))
                       (Demo.start (Demo.Holding false)))).
    vm_compute. reflexivity.
  - reflexivity.
  - reflexivity.
  - reflexivity.
  - reflexivity.
  - reflexivity.
  - reflexivity.
Defined.

(** the dashboard of the operator: the position with its "Enable" button;
    pressing it restarts the script with the flag set on the exchange *)
Example dashboard_shows_then_toggles :
  fst (dashboard_view Demo.serve Demo.open_mode Bench.idle
                      (Demo.start (Demo.Holding false)))
  = inr (Table [(List.hd [] (Demo.listing false), "Enable"%string)] [])
  /\ fst (dashboard_view Demo.serve Demo.open_mode Bench.press
                         (Demo.start (Demo.Holding false)))
     = inr Restart
  /\ exchange (snd (dashboard_view Demo.serve Demo.open_mode Bench.press
                                   (Demo.start (Demo.Holding false))))
     = Demo.Holding true.
Proof. repeat split; vm_compute; reflexivity. Qed.
